(** * make-comics: the page-generation modal and the free-tier rate limit

  A shallow embedding of [GeneratePageModal] (state, handlers and the two
  submit triggers of its JSX) and of the [freeTierRateLimit] configuration,
  followed by the properties established about them. *)

From Stdlib Require Import String Ascii List ZArith NArith Lia Bool.
Import ListNotations.
Local Open Scope N_scope.

(** ** JavaScript values *)

Module Js.

(** A JavaScript string is a sequence of UTF-16 code units. *)
Definition str := list N.

(** An ASCII literal of the source as a JavaScript string. *)
Definition lit (s : string) : str := map N_of_ascii (list_ascii_of_string s).

(** WhiteSpace and LineTerminator code points of ECMAScript, the characters
    that [String.prototype.trim] strips. *)
Definition isWhiteSpace (c : N) : bool :=
  ((9 <=? c) && (c <=? 13))
  || (c =? 32) || (c =? 160) || (c =? 5760)
  || ((8192 <=? c) && (c <=? 8202))
  || (c =? 8232) || (c =? 8233) || (c =? 8239) || (c =? 8287)
  || (c =? 12288) || (c =? 65279).

Fixpoint trimStart (s : str) : str :=
  match s with
  | [] => []
  | c :: r => if isWhiteSpace c then trimStart r else s
  end.

Definition trimEnd (s : str) : str := rev (trimStart (rev s)).

Definition trim (s : str) : str := trimEnd (trimStart s).

(** ToBoolean on a string: only the empty string is falsy. *)
Definition truthy (s : str) : bool :=
  match s with [] => false | _ :: _ => true end.

(** ToBoolean on an optional string ([undefined] is falsy). *)
Definition truthyOpt (o : option str) : bool :=
  match o with None => false | Some s => truthy s end.

(** A value reaching a [catch] clause: an [Error] instance with its
    [message], or anything else. *)
Inductive Thrown :=
| ErrorInstance (message : str)
| NonError (value : str).

(** The eventual state of a promise.  A rejection carries the moment at
    which it happens, which decides the rejection [Promise.all] reports. *)
Inductive Promise (A : Type) :=
| Fulfilled (a : A)
| Rejected (at_time : nat) (e : Thrown)
| Pending.
Arguments Fulfilled {A} a.
Arguments Rejected {A} at_time e.
Arguments Pending {A}.

(** [p.then(f)] *)
Definition then_ {A B} (f : A -> B) (p : Promise A) : Promise B :=
  match p with
  | Fulfilled a => Fulfilled (f a)
  | Rejected t e => Rejected t e
  | Pending => Pending
  end.

(** The earliest rejection of a list of promises (the lower index wins a
    tie). *)
Fixpoint firstRejected {A} (ps : list (Promise A)) : option (nat * Thrown) :=
  match ps with
  | [] => None
  | Rejected t e :: r =>
      match firstRejected r with
      | Some (t', e') => if (t' <? t)%nat then Some (t', e') else Some (t, e)
      | None => Some (t, e)
      end
  | _ :: r => firstRejected r
  end.

Fixpoint allFulfilled {A} (ps : list (Promise A)) : option (list A) :=
  match ps with
  | [] => Some []
  | Fulfilled a :: r =>
      match allFulfilled r with
      | Some vs => Some (a :: vs)
      | None => None
      end
  | _ :: _ => None
  end.

(** [Promise.all(ps)]: rejects with the first rejection to happen, fulfils
    with the values in index order once every promise has fulfilled, and
    stays pending otherwise. *)
Definition all {A} (ps : list (Promise A)) : Promise (list A) :=
  match firstRejected ps with
  | Some (t, e) => Rejected t e
  | None =>
      match allFulfilled ps with
      | Some vs => Fulfilled vs
      | None => Pending
      end
  end.

(** [xs.filter((_, i) => i !== index)] *)
Fixpoint filterIndexNe {A} (index : Z) (i : Z) (xs : list A) : list A :=
  match xs with
  | [] => []
  | x :: r =>
      if (i =? index)%Z then filterIndexNe index (i + 1)%Z r
      else x :: filterIndexNe index (i + 1)%Z r
  end.

End Js.

Import Js.

(** ** The page-generation modal *)

Module GeneratePageModal.

(** A browser [File] handle. *)
Record File := {
  file_name : str;
  file_type : str;
  file_size : N;
}.

(** Result of [validateFileForUpload]: [{ valid, error? }]. *)
Record Validation := {
  valid : bool;
  error : option str;
}.

(** What [uploadToS3] resolves to; the component reads [url] only. *)
Record UploadResult := {
  url : str;
  bucket : str;
  key : str;
}.

(** Argument of [onGenerate]: [{ prompt, characterUrls? }]. *)
Record GenerateData := {
  data_prompt : str;
  data_characterUrls : option (list str);
}.

Inductive Variant := Default | Destructive.

(** Argument of [toast]. *)
Record Toast := {
  title : str;
  description : str;
  variant : Variant;
  duration : N;
}.

(** The component instance: its five [useState] cells, the [isOpen] prop,
    the file input behind [fileInputRef] ([None] when [current] is null,
    otherwise its [value]), the preview batches of [handleFiles] still
    awaiting their [Promise.all], and the calls made so far to the
    collaborators. *)
Record Modal := {
  prompt : str;
  uploadedFiles : list File;
  previews : list str;
  showPreview : option Z;
  isGenerating : bool;
  isOpen : bool;
  fileInput : option str;
  pendingPreviews : list (list File);
  toasts : list Toast;
  s3Uploads : list File;
  onGenerateCalls : list GenerateData;
  consoleErrors : list Thrown;
  onCloseCalls : nat;
}.

Definition setPrompt (v : str) (m : Modal) : Modal :=
  {| prompt := v; uploadedFiles := uploadedFiles m; previews := previews m;
     showPreview := showPreview m; isGenerating := isGenerating m;
     isOpen := isOpen m; fileInput := fileInput m;
     pendingPreviews := pendingPreviews m; toasts := toasts m;
     s3Uploads := s3Uploads m; onGenerateCalls := onGenerateCalls m;
     consoleErrors := consoleErrors m; onCloseCalls := onCloseCalls m |}.

Definition setUploadedFiles (v : list File) (m : Modal) : Modal :=
  {| prompt := prompt m; uploadedFiles := v; previews := previews m;
     showPreview := showPreview m; isGenerating := isGenerating m;
     isOpen := isOpen m; fileInput := fileInput m;
     pendingPreviews := pendingPreviews m; toasts := toasts m;
     s3Uploads := s3Uploads m; onGenerateCalls := onGenerateCalls m;
     consoleErrors := consoleErrors m; onCloseCalls := onCloseCalls m |}.

Definition setPreviews (v : list str) (m : Modal) : Modal :=
  {| prompt := prompt m; uploadedFiles := uploadedFiles m; previews := v;
     showPreview := showPreview m; isGenerating := isGenerating m;
     isOpen := isOpen m; fileInput := fileInput m;
     pendingPreviews := pendingPreviews m; toasts := toasts m;
     s3Uploads := s3Uploads m; onGenerateCalls := onGenerateCalls m;
     consoleErrors := consoleErrors m; onCloseCalls := onCloseCalls m |}.

Definition setShowPreview (v : option Z) (m : Modal) : Modal :=
  {| prompt := prompt m; uploadedFiles := uploadedFiles m;
     previews := previews m; showPreview := v;
     isGenerating := isGenerating m; isOpen := isOpen m;
     fileInput := fileInput m; pendingPreviews := pendingPreviews m;
     toasts := toasts m; s3Uploads := s3Uploads m;
     onGenerateCalls := onGenerateCalls m;
     consoleErrors := consoleErrors m; onCloseCalls := onCloseCalls m |}.

Definition setIsGenerating (v : bool) (m : Modal) : Modal :=
  {| prompt := prompt m; uploadedFiles := uploadedFiles m;
     previews := previews m; showPreview := showPreview m;
     isGenerating := v; isOpen := isOpen m; fileInput := fileInput m;
     pendingPreviews := pendingPreviews m; toasts := toasts m;
     s3Uploads := s3Uploads m; onGenerateCalls := onGenerateCalls m;
     consoleErrors := consoleErrors m; onCloseCalls := onCloseCalls m |}.

Definition setIsOpen (v : bool) (m : Modal) : Modal :=
  {| prompt := prompt m; uploadedFiles := uploadedFiles m;
     previews := previews m; showPreview := showPreview m;
     isGenerating := isGenerating m; isOpen := v; fileInput := fileInput m;
     pendingPreviews := pendingPreviews m; toasts := toasts m;
     s3Uploads := s3Uploads m; onGenerateCalls := onGenerateCalls m;
     consoleErrors := consoleErrors m; onCloseCalls := onCloseCalls m |}.

Definition setFileInput (v : option str) (m : Modal) : Modal :=
  {| prompt := prompt m; uploadedFiles := uploadedFiles m;
     previews := previews m; showPreview := showPreview m;
     isGenerating := isGenerating m; isOpen := isOpen m; fileInput := v;
     pendingPreviews := pendingPreviews m; toasts := toasts m;
     s3Uploads := s3Uploads m; onGenerateCalls := onGenerateCalls m;
     consoleErrors := consoleErrors m; onCloseCalls := onCloseCalls m |}.

Definition setPendingPreviews (v : list (list File)) (m : Modal) : Modal :=
  {| prompt := prompt m; uploadedFiles := uploadedFiles m;
     previews := previews m; showPreview := showPreview m;
     isGenerating := isGenerating m; isOpen := isOpen m;
     fileInput := fileInput m; pendingPreviews := v; toasts := toasts m;
     s3Uploads := s3Uploads m; onGenerateCalls := onGenerateCalls m;
     consoleErrors := consoleErrors m; onCloseCalls := onCloseCalls m |}.

(** [toast({...})] *)
Definition toast (t : Toast) (m : Modal) : Modal :=
  {| prompt := prompt m; uploadedFiles := uploadedFiles m;
     previews := previews m; showPreview := showPreview m;
     isGenerating := isGenerating m; isOpen := isOpen m;
     fileInput := fileInput m; pendingPreviews := pendingPreviews m;
     toasts := toasts m ++ [t]; s3Uploads := s3Uploads m;
     onGenerateCalls := onGenerateCalls m;
     consoleErrors := consoleErrors m; onCloseCalls := onCloseCalls m |}.

(** The calls [uploadToS3(file)] started for [fs]. *)
Definition startUploads (fs : list File) (m : Modal) : Modal :=
  {| prompt := prompt m; uploadedFiles := uploadedFiles m;
     previews := previews m; showPreview := showPreview m;
     isGenerating := isGenerating m; isOpen := isOpen m;
     fileInput := fileInput m; pendingPreviews := pendingPreviews m;
     toasts := toasts m; s3Uploads := s3Uploads m ++ fs;
     onGenerateCalls := onGenerateCalls m;
     consoleErrors := consoleErrors m; onCloseCalls := onCloseCalls m |}.

(** The call [onGenerate(d)]. *)
Definition callOnGenerate (d : GenerateData) (m : Modal) : Modal :=
  {| prompt := prompt m; uploadedFiles := uploadedFiles m;
     previews := previews m; showPreview := showPreview m;
     isGenerating := isGenerating m; isOpen := isOpen m;
     fileInput := fileInput m; pendingPreviews := pendingPreviews m;
     toasts := toasts m; s3Uploads := s3Uploads m;
     onGenerateCalls := onGenerateCalls m ++ [d];
     consoleErrors := consoleErrors m; onCloseCalls := onCloseCalls m |}.

(** [console.error("Error generating page:", e)] *)
Definition consoleError (e : Thrown) (m : Modal) : Modal :=
  {| prompt := prompt m; uploadedFiles := uploadedFiles m;
     previews := previews m; showPreview := showPreview m;
     isGenerating := isGenerating m; isOpen := isOpen m;
     fileInput := fileInput m; pendingPreviews := pendingPreviews m;
     toasts := toasts m; s3Uploads := s3Uploads m;
     onGenerateCalls := onGenerateCalls m;
     consoleErrors := consoleErrors m ++ [e];
     onCloseCalls := onCloseCalls m |}.

(** The call [onClose()]. *)
Definition onClose (m : Modal) : Modal :=
  {| prompt := prompt m; uploadedFiles := uploadedFiles m;
     previews := previews m; showPreview := showPreview m;
     isGenerating := isGenerating m; isOpen := isOpen m;
     fileInput := fileInput m; pendingPreviews := pendingPreviews m;
     toasts := toasts m; s3Uploads := s3Uploads m;
     onGenerateCalls := onGenerateCalls m;
     consoleErrors := consoleErrors m; onCloseCalls := S (onCloseCalls m) |}.

(** The component as first rendered: the [useState] defaults, nothing
    called yet. *)
Definition mount (open : bool) (input : option str) : Modal :=
  {| prompt := []; uploadedFiles := []; previews := [];
     showPreview := None; isGenerating := false; isOpen := open;
     fileInput := input; pendingPreviews := []; toasts := [];
     s3Uploads := []; onGenerateCalls := []; consoleErrors := [];
     onCloseCalls := 0%nat |}.

Section Handlers.

(** The collaborators: two imports from [@/lib/file-utils], the upload hook
    of [next-s3-upload] and the [onGenerate] prop.  Promises are given by
    their eventual state. *)
Variable validateFileForUpload : File -> bool -> Validation.
Variable generateFilePreview : File -> str.
Variable uploadToS3 : File -> Promise UploadResult.
Variable onGenerate : GenerateData -> Promise unit.

(** The effect "Reset form when modal opens". *)
Definition resetOnOpen (isRedrawMode : bool) (existingPrompt : str)
    (m : Modal) : Modal :=
  if isOpen m then
    setIsGenerating false
      (setShowPreview None
        (setPreviews []
          (setUploadedFiles []
            (setPrompt (if isRedrawMode then existingPrompt else []) m))))
  else m.

Definition invalidFileToast (e : str) : Toast :=
  {| title := lit "Invalid file"; description := e;
     variant := Destructive; duration := 4000 |}.

(** Body of the [forEach] over the validation results:
    [if (!validation.valid && validation.error) toast(...)]. *)
Definition reportInvalid (v : Validation) (m : Modal) : Modal :=
  match error v with
  | Some e =>
      if negb (valid v) && truthy e then toast (invalidFileToast e) m else m
  | None => m
  end.

(** [handleFiles], up to its [await]: the preview batch it asks for is left
    in [pendingPreviews]. *)
Definition handleFiles (newFiles : option (list File)) (m : Modal) : Modal :=
  match newFiles with
  | None => m
  | Some filesArray =>
      let validationResults :=
        map (fun file => (file, validateFileForUpload file true)) filesArray in
      let m1 :=
        fold_left (fun acc r => reportInvalid (snd r) acc) validationResults m in
      let validFiles :=
        map fst (filter (fun r => valid (snd r)) validationResults) in
      if (length validFiles =? 0)%nat then m1
      else
        let totalFiles := firstn 2 (uploadedFiles m ++ validFiles) in
        setPendingPreviews (pendingPreviews m1 ++ [totalFiles])
          (setUploadedFiles totalFiles m1)
  end.

Definition dropNth {A} (k : nat) (l : list A) : list A :=
  firstn k l ++ skipn (S k) l.

(** [handleFiles], after its [await]: the [k]-th pending batch fulfils and
    [setPreviews(newPreviews)] runs with the previews of the files that batch
    was started for. *)
Definition handleFiles_resume (k : nat) (m : Modal) : Modal :=
  match nth_error (pendingPreviews m) k with
  | None => m
  | Some totalFiles =>
      setPreviews (map generateFilePreview totalFiles)
        (setPendingPreviews (dropNth k (pendingPreviews m)) m)
  end.

Definition removeFile (index : Z) (m : Modal) : Modal :=
  let newFiles := filterIndexNe index 0 (uploadedFiles m) in
  let newPreviews := filterIndexNe index 0 (previews m) in
  let m1 :=
    setShowPreview None (setPreviews newPreviews (setUploadedFiles newFiles m)) in
  match fileInput m1 with
  | Some _ => setFileInput (Some []) m1
  | None => m1
  end.

Definition failureDescription (e : Thrown) : str :=
  match e with
  | ErrorInstance message => message
  | NonError _ => lit "Failed to generate page. Please try again."
  end.

Definition generationFailedToast (e : Thrown) : Toast :=
  {| title := lit "Generation failed"; description := failureDescription e;
     variant := Destructive; duration := 4000 |}.

(** The [catch] clause of [handleGenerate]. *)
Definition handleGenerate_catch (e : Thrown) (m : Modal) : Modal :=
  setIsGenerating false (toast (generationFailedToast e) (consoleError e m)).

(** [handleGenerate] from [setIsGenerating(true)] up to the first [await]:
    every upload has been started. *)
Definition handleGenerate_start (m : Modal) : Modal :=
  startUploads (uploadedFiles m) (setIsGenerating true m).

(** The [Promise.all] awaited by [handleGenerate]. *)
Definition uploadAll (files : list File) : Promise (list str) :=
  all (map (fun file => then_ url (uploadToS3 file)) files).

Definition generateData (p : str) (characterUrls : list str) : GenerateData :=
  {| data_prompt := p;
     data_characterUrls :=
       if (0 <? length characterUrls)%nat then Some characterUrls else None |}.

(** [handleGenerate] after the first [await], for the prompt and the files
    of the render it was called in. *)
Definition handleGenerate_resume (p : str) (files : list File) (m : Modal)
    : Modal :=
  match uploadAll files with
  | Fulfilled characterUrls =>
      let d := generateData p characterUrls in
      let m1 := callOnGenerate d m in
      match onGenerate d with
      | Fulfilled _ => m1
      | Rejected _ e => handleGenerate_catch e m1
      | Pending => m1
      end
  | Rejected _ e => handleGenerate_catch e m
  | Pending => m
  end.

(** [handleGenerate], run until nothing of it is left to run. *)
Definition handleGenerate (m : Modal) : Modal :=
  if negb (truthy (trim (prompt m))) then m
  else handleGenerate_resume (prompt m) (uploadedFiles m)
         (handleGenerate_start m).

(** The submit [Button]: [disabled={!prompt.trim() || isGenerating}],
    [onClick={handleGenerate}]. *)
Definition submitDisabled (m : Modal) : bool :=
  negb (truthy (trim (prompt m))) || isGenerating m.

Definition submitClick (m : Modal) : Modal :=
  if submitDisabled m then m else handleGenerate m.

(** The callback given to [useKeyboardShortcut]. *)
Definition shortcutCallback (m : Modal) : Modal :=
  if isOpen m && negb (isGenerating m) && truthy (trim (prompt m))
  then handleGenerate m
  else m.

(** Modelled from the spec: the hook [useKeyboardShortcut] is not among the
    sources; the shortcut "is inert whenever the composer is closed or a
    submission is already in flight", which is the option
    [{ disabled: !isOpen || isGenerating }] it is registered with, and
    otherwise the key combination runs the callback. *)
Definition submitShortcut (m : Modal) : Modal :=
  if negb (isOpen m) || isGenerating m then m else shortcutCallback m.

Definition handleOpenChange (open : bool) (m : Modal) : Modal :=
  if negb open && isGenerating m then m else onClose m.

(** What can happen to a mounted modal, and the handler each event runs.
    Controls carrying [disabled={isGenerating}] ignore their event while a
    generation is running. *)
Inductive Event :=
| Opened (isRedrawMode : bool) (existingPrompt : str)
| Hidden
| Typed (v : str)
| FilesChosen (newFiles : option (list File))
| PreviewsReady (k : nat)
| RemoveClicked (index : Z)
| ThumbnailClicked (index : Z)
| ViewerDismissed
| SubmitClicked
| ShortcutPressed
| OpenChange (open : bool).

Definition step (m : Modal) (ev : Event) : Modal :=
  match ev with
  | Opened isRedrawMode existingPrompt =>
      resetOnOpen isRedrawMode existingPrompt (setIsOpen true m)
  | Hidden => setIsOpen false m
  | Typed v => if isGenerating m then m else setPrompt v m
  | FilesChosen newFiles => handleFiles newFiles m
  | PreviewsReady k => handleFiles_resume k m
  | RemoveClicked index => if isGenerating m then m else removeFile index m
  | ThumbnailClicked index => setShowPreview (Some index) m
  | ViewerDismissed => setShowPreview None m
  | SubmitClicked => submitClick m
  | ShortcutPressed => submitShortcut m
  | OpenChange open => handleOpenChange open m
  end.

Definition run (evs : list Event) (m : Modal) : Modal := fold_left step evs m.

End Handlers.

End GeneratePageModal.

(** ** The free-tier rate limit *)

Module RateLimit.

(** The algorithms a [Ratelimit] can be built with; [fixedWindow] is the
    one the repository uses. *)
Inductive Algorithm :=
| FixedWindow (tokens : N) (window : string)
| SlidingWindow (tokens : N) (window : string)
| TokenBucket (refillRate : N) (interval : string) (maxTokens : N).

Definition fixedWindow (tokens : N) (window : string) : Algorithm :=
  FixedWindow tokens window.

(** The options given to [new Ratelimit({...})]; the [redis] connection is
    built from the environment and holds no constant. *)
Record Ratelimit := {
  limiter : Algorithm;
  analytics : bool;
  prefix : string;
}.

(** Free tier: 3 comics per week (fixed window) *)
Definition freeTierRateLimit : Ratelimit :=
  {| limiter := fixedWindow 3 "7 d";
     analytics := true;
     prefix := "ratelimit:free-comics" |}.

Definition isDigit (c : ascii) : bool :=
  let n := N_of_ascii c in (48 <=? n) && (n <=? 57).

Definition isSpace (c : ascii) : bool :=
  let n := N_of_ascii c in ((9 <=? n) && (n <=? 13)) || (n =? 32).

Fixpoint readDigits (s : string) (acc : N) : N * string :=
  match s with
  | String c r =>
      if isDigit c then readDigits r (10 * acc + (N_of_ascii c - 48))
      else (acc, s)
  | EmptyString => (acc, s)
  end.

Definition unitMs (u : string) : option N :=
  if String.eqb u "ms" then Some 1
  else if String.eqb u "s" then Some 1000
  else if String.eqb u "m" then Some (1000 * 60)
  else if String.eqb u "h" then Some (1000 * 60 * 60)
  else if String.eqb u "d" then Some (1000 * 60 * 60 * 24)
  else None.

(** Modelled from the spec: the limiter package is an external collaborator
    and not part of the repository; the spec reads the window ["7 d"] as a
    7-day window.  A window is a count, an optional blank and a unit among
    ms, s, m, h and d; its length is given in milliseconds. *)
Definition ms (d : string) : option N :=
  match d with
  | EmptyString => None
  | String c _ =>
      if isDigit c then
        let (n, rest) := readDigits d 0 in
        let u :=
          match rest with
          | String b r => if isSpace b then r else rest
          | EmptyString => rest
          end in
        option_map (N.mul n) (unitMs u)
      else None
  end.

(** The counters of the key-value store: uses per subject and window. *)
Definition Store := string -> N -> N.

Definition emptyStore : Store := fun _ _ => 0.

Definition increment (subject : string) (bucket : N) (st : Store) : Store :=
  fun s b =>
    if String.eqb s subject && (b =? bucket) then st s b + 1 else st s b.

(** Modelled from the spec: a fixed window is "a quota scheme where a count
    resets entirely at fixed time boundaries".  Time [now] (in milliseconds)
    falls in window [now / windowMs]; an operation counts one use of the
    subject in that window and is allowed while the uses do not exceed
    [tokens]. *)
Definition limitFixedWindow (tokens windowMs : N) (subject : string) (now : N)
    (st : Store) : bool * Store :=
  let bucket := now / windowMs in
  let st' := increment subject bucket st in
  (st' subject bucket <=? tokens, st').

(** [ratelimit.limit(subject)] at time [now]; [None] for an algorithm other
    than the fixed window or a window that does not parse. *)
Definition limit (r : Ratelimit) (subject : string) (now : N) (st : Store)
    : option (bool * Store) :=
  match limiter r with
  | FixedWindow tokens window =>
      match ms window with
      | Some windowMs => Some (limitFixedWindow tokens windowMs subject now st)
      | None => None
      end
  | _ => None
  end.

(** Successive operations of one subject at the given times: the answers,
    oldest first, and the store they leave. *)
Fixpoint limits (r : Ratelimit) (subject : string) (times : list N)
    (st : Store) : option (list bool * Store) :=
  match times with
  | [] => Some ([], st)
  | now :: later =>
      match limit r subject now st with
      | Some (ok, st') =>
          match limits r subject later st' with
          | Some (oks, st'') => Some (ok :: oks, st'')
          | None => None
          end
      | None => None
      end
  end.

Definition sevenDays : N := 7 * 24 * 60 * 60 * 1000.

End RateLimit.

Import GeneratePageModal.

(** The candidates of an add-files call ([null] offers none) and those of
    them that pass validation. *)
Definition candidates (newFiles : option (list File)) : list File :=
  match newFiles with None => [] | Some fs => fs end.

Definition validCandidates (validate : File -> bool -> Validation)
    (newFiles : option (list File)) : list File :=
  filter (fun f => valid (validate f true)) (candidates newFiles).

Definition invalidCandidates (validate : File -> bool -> Validation)
    (newFiles : option (list File)) : list File :=
  filter (fun f => negb (valid (validate f true))) (candidates newFiles).

(** The reasons notified for a batch: the non-empty [error] of each
    candidate that is not valid, in order. *)
Definition notifiedReasons (validate : File -> bool -> Validation)
    (newFiles : option (list File)) : list str :=
  flat_map
    (fun f =>
       match error (validate f true) with
       | Some e => if negb (valid (validate f true)) && truthy e then [e] else []
       | None => []
       end)
    (candidates newFiles).

(** One notification per candidate that fails validation. *)
Definition reportsEveryInvalid (validate : File -> bool -> Validation)
    (newFiles : option (list File)) (m : Modal) : Prop :=
  length (toasts (handleFiles validate newFiles m)) =
  (length (toasts m) + length (invalidCandidates validate newFiles))%nat.

(** The preview at each index is the preview of the attachment at that
    index. *)
Definition previewsCorrespond (preview : File -> str) (m : Modal) : Prop :=
  previews m = map preview (uploadedFiles m).

(** A submission fails when the joined uploads reject, or when they fulfil
    and the handler rejects; [failure] is the value caught. *)
Definition submissionFails (upload : File -> Promise UploadResult)
    (handler : GenerateData -> Promise unit) (m : Modal) (failure : Thrown)
    : Prop :=
  (exists t, uploadAll upload (uploadedFiles m) = Rejected t failure)
  \/ (exists urls t,
        uploadAll upload (uploadedFiles m) = Fulfilled urls
        /\ handler (generateData (prompt m) urls) = Rejected t failure).

(** Every upload fulfils, with [results] in attachment order. *)
Definition uploadsFulfil (upload : File -> Promise UploadResult)
    (files : list File) (results : list UploadResult) : Prop :=
  map upload files = map Fulfilled results.

(** ** Sample collaborators and files *)

Module Sample.

Definition hero : File :=
  {| file_name := lit "hero.png"; file_type := lit "image/png";
     file_size := 1000 |}.

Definition villain : File :=
  {| file_name := lit "villain.jpg"; file_type := lit "image/jpeg";
     file_size := 2000 |}.

Definition notes : File :=
  {| file_name := lit "notes.txt"; file_type := lit "text/plain";
     file_size := 10 |}.

Definition isImage (f : File) : bool :=
  match file_type f with
  | 105 :: 109 :: 97 :: 103 :: 101 :: 47 :: _ => true
  | _ => false
  end.

(** Accepts images; gives a reason for anything else. *)
Definition validateWithReason (f : File) (_ : bool) : Validation :=
  if isImage f then {| valid := true; error := None |}
  else {| valid := false; error := Some (lit "Please upload an image") |}.

(** Accepts images; rejects anything else without a reason. *)
Definition validateSilently (f : File) (_ : bool) : Validation :=
  {| valid := isImage f; error := None |}.

Definition previewOf (f : File) : str := lit "blob:" ++ file_name f.

Definition stored (f : File) : UploadResult :=
  {| url := lit "https://bucket.s3/" ++ file_name f;
     bucket := lit "bucket"; key := file_name f |}.

Definition uploadOk (f : File) : Promise UploadResult := Fulfilled (stored f).

(** The upload of [villain] rejects with an [Error]; the others fulfil. *)
Definition uploadVillainFails (f : File) : Promise UploadResult :=
  if isImage f && (file_size f =? 2000)
  then Rejected 1 (ErrorInstance (lit "Upload failed"))
  else Fulfilled (stored f).

Definition generateOk (_ : GenerateData) : Promise unit := Fulfilled tt.

Definition generateThrowsString (_ : GenerateData) : Promise unit :=
  Rejected 5 (NonError (lit "quota")).

(** An open modal with a prompt typed in and the given attachments. *)
Definition drafted (files : list File) : Modal :=
  setPreviews (map previewOf files)
    (setUploadedFiles files
      (setPrompt (lit " a rooftop chase ") (mount true (Some [])))).

End Sample.

(** ** Further notions about the modal *)

(** [m] with the notifications [ts] added. *)
Definition withToasts (ts : list Toast) (m : Modal) : Modal :=
  {| prompt := prompt m; uploadedFiles := uploadedFiles m;
     previews := previews m; showPreview := showPreview m;
     isGenerating := isGenerating m; isOpen := isOpen m;
     fileInput := fileInput m; pendingPreviews := pendingPreviews m;
     toasts := toasts m ++ ts; s3Uploads := s3Uploads m;
     onGenerateCalls := onGenerateCalls m;
     consoleErrors := consoleErrors m; onCloseCalls := onCloseCalls m |}.

(** What a caller of [onGenerate] can rely on: a prompt that is not blank,
    and [characterUrls] either absent or holding 1 or 2 URLs. *)
Definition wellFormedData (d : GenerateData) : Prop :=
  truthy (trim (data_prompt d)) = true
  /\ match data_characterUrls d with
     | None => True
     | Some urls => (1 <= length urls <= 2)%nat
     end.

(** The two notifications the modal raises. *)
Definition modalToast (t : Toast) : Prop :=
  variant t = Destructive
  /\ duration t = 4000
  /\ ((title t = lit "Invalid file" /\ truthy (description t) = true)
      \/ title t = lit "Generation failed").

(** A preview batch holds 1 or 2 files. *)
Definition batchSized (b : list File) : Prop := (1 <= length b <= 2)%nat.

Definition isOpenChange (ev : Event) : bool :=
  match ev with OpenChange _ => true | _ => false end.

(** The events of controls that are disabled, or whose handler returns at
    once, while a generation is running: typing, the remove buttons, the
    submit button, the keyboard shortcut and a request to close. *)
Definition blockedWhileGenerating (ev : Event) : bool :=
  match ev with
  | Typed _ | RemoveClicked _ | SubmitClicked | ShortcutPressed
  | OpenChange false => true
  | _ => false
  end.

(** ** The Google One Tap widget *)

Module GoogleOneTap.

(** The notification object handed to the [prompt] callback. *)
Record Notification := {
  isNotDisplayed : bool;
  getNotDisplayedReason : str;
  isSkippedMoment : bool;
  getSkippedReason : str;
  isDismissedMoment : bool;
  getDismissedReason : str;
}.

(** Lines written with [console.log]. *)
Inductive LogLine :=
| NotificationLine (n : Notification)
| NotDisplayedReasonLine (reason : str)
| SkippedReasonLine (reason : str)
| DismissedReasonLine (reason : str).

(** Calls on [google.accounts.id]. *)
Inductive GoogleCall :=
| Initialize (client_id : option str)
| Prompt.

(** Calls on [clerk]. *)
Inductive ClerkCall :=
| AuthenticateWithGoogleOneTap (token : str)
| HandleGoogleOneTapCallback (res : str) (signInFallbackRedirectUrl : str).

(** The widget: what it rendered ([false] for [null], [true] for the
    [Script]), the client id it read, the milliseconds left on the timer set
    by its effect ([None]: no timer set, or cleared, or run), and the calls
    made so far. *)
Record Widget := {
  rendered : bool;
  googleClientId : option str;
  timeout : option N;
  googleCalls : list GoogleCall;
  clerkCalls : list ClerkCall;
  consoleLog : list LogLine;
  routerPushes : list str;
}.

Definition setTimeout (v : option N) (w : Widget) : Widget :=
  {| rendered := rendered w; googleClientId := googleClientId w;
     timeout := v; googleCalls := googleCalls w; clerkCalls := clerkCalls w;
     consoleLog := consoleLog w; routerPushes := routerPushes w |}.

Definition callGoogle (c : GoogleCall) (w : Widget) : Widget :=
  {| rendered := rendered w; googleClientId := googleClientId w;
     timeout := timeout w; googleCalls := googleCalls w ++ [c];
     clerkCalls := clerkCalls w; consoleLog := consoleLog w;
     routerPushes := routerPushes w |}.

Definition callClerk (c : ClerkCall) (w : Widget) : Widget :=
  {| rendered := rendered w; googleClientId := googleClientId w;
     timeout := timeout w; googleCalls := googleCalls w;
     clerkCalls := clerkCalls w ++ [c]; consoleLog := consoleLog w;
     routerPushes := routerPushes w |}.

Definition consoleLogLine (l : LogLine) (w : Widget) : Widget :=
  {| rendered := rendered w; googleClientId := googleClientId w;
     timeout := timeout w; googleCalls := googleCalls w;
     clerkCalls := clerkCalls w; consoleLog := consoleLog w ++ [l];
     routerPushes := routerPushes w |}.

Definition routerPush (path : str) (w : Widget) : Widget :=
  {| rendered := rendered w; googleClientId := googleClientId w;
     timeout := timeout w; googleCalls := googleCalls w;
     clerkCalls := clerkCalls w; consoleLog := consoleLog w;
     routerPushes := routerPushes w ++ [path] |}.

(** The component function with its mount effect: [null] and nothing else
    unless in production with a client id; otherwise the [Script] and a
    timer of two seconds for [oneTap]. *)
Definition CustomGoogleOneTap (isProduction : bool) (clientId : option str)
    : Widget :=
  if negb isProduction || negb (truthyOpt clientId) then
    {| rendered := false; googleClientId := clientId; timeout := None;
       googleCalls := []; clerkCalls := []; consoleLog := [];
       routerPushes := [] |}
  else
    {| rendered := true; googleClientId := clientId; timeout := Some 2000;
       googleCalls := []; clerkCalls := []; consoleLog := [];
       routerPushes := [] |}.

(** [oneTap], given whether [window.google] is there. *)
Definition oneTap (google : bool) (w : Widget) : Widget :=
  if google then callGoogle Prompt (callGoogle (Initialize (googleClientId w)) w)
  else w.

(** The callback given to [google.accounts.id.prompt]. *)
Definition promptCallback (n : Notification) (w : Widget) : Widget :=
  let w1 := consoleLogLine (NotificationLine n) w in
  if isNotDisplayed n then
    consoleLogLine (NotDisplayedReasonLine (getNotDisplayedReason n)) w1
  else if isSkippedMoment n then
    consoleLogLine (SkippedReasonLine (getSkippedReason n)) w1
  else if isDismissedMoment n then
    consoleLogLine (DismissedReasonLine (getDismissedReason n)) w1
  else w1.

Section Clerk.

Variable authenticateWithGoogleOneTap : str -> Promise str.
Variable handleGoogleOneTapCallback : str -> str -> Promise unit.

(** [call(token)], run until nothing of it is left to run. *)
Definition call (token : str) (w : Widget) : Widget :=
  let w1 := callClerk (AuthenticateWithGoogleOneTap token) w in
  match authenticateWithGoogleOneTap token with
  | Fulfilled res =>
      let w2 := callClerk (HandleGoogleOneTapCallback res (lit "/")) w1 in
      match handleGoogleOneTapCallback res (lit "/") with
      | Fulfilled _ => w2
      | Rejected _ _ => routerPush (lit "/") w2
      | Pending => w2
      end
  | Rejected _ _ => routerPush (lit "/") w1
  | Pending => w1
  end.

End Clerk.

(** The life of the timer: time passes ([google] says whether
    [window.google] is there should the timer run now), or the component
    unmounts and its cleanup clears the timer. *)
Inductive Event :=
| Elapse (ms : N) (google : bool)
| Unmount.

Definition step (w : Widget) (ev : Event) : Widget :=
  match ev with
  | Elapse ms google =>
      match timeout w with
      | Some remaining =>
          if remaining <=? ms then oneTap google (setTimeout None w)
          else setTimeout (Some (remaining - ms)) w
      | None => w
      end
  | Unmount => setTimeout None w
  end.

Definition run (evs : list Event) (w : Widget) : Widget := fold_left step evs w.

(** Milliseconds passed over a list of events. *)
Fixpoint elapsed (evs : list Event) : N :=
  match evs with
  | [] => 0
  | Elapse ms _ :: r => ms + elapsed r
  | Unmount :: r => elapsed r
  end.

Definition unmounts (ev : Event) : bool :=
  match ev with Unmount => true | Elapse _ _ => false end.

Definition googleLoaded (ev : Event) : bool :=
  match ev with Unmount => true | Elapse _ google => google end.

End GoogleOneTap.

(** ** Facts about strings and lists *)

Lemma trimStart_nil_iff (s : str) :
  trimStart s = [] <-> forallb isWhiteSpace s = true.
Proof.
  induction s as [|c r IH]; simpl.
  - tauto.
  - destruct (isWhiteSpace c); simpl.
    + exact IH.
    + split; discriminate.
Qed.

Lemma trim_nil_iff (s : str) :
  trim s = [] <-> forallb isWhiteSpace s = true.
Proof.
  unfold trim, trimEnd. split.
  - intros H. destruct (trimStart s) as [|c r] eqn:E.
    + now apply trimStart_nil_iff.
    + exfalso.
      assert (L : length (rev (trimStart (rev (c :: r)))) = 0%nat)
        by now rewrite H.
      rewrite length_rev in L.
      assert (N : isWhiteSpace c = false).
      { destruct s as [|a s']; [discriminate|]. revert E.
        clear. revert a. induction s' as [|b s' IH]; intros a; simpl.
        - destruct (isWhiteSpace a) eqn:W; [discriminate|].
          intros E; injection E as <- _. exact W.
        - destruct (isWhiteSpace a) eqn:W.
          + apply IH.
          + intros E; injection E as <- _. exact W. }
      assert (F : forallb isWhiteSpace (rev (c :: r)) = true).
      { apply trimStart_nil_iff.
        destruct (trimStart (rev (c :: r))); [reflexivity|discriminate]. }
      rewrite forallb_forall in F.
      specialize (F c). rewrite <- in_rev in F.
      rewrite F in N; [discriminate|now left].
  - intros H. apply trimStart_nil_iff in H. rewrite H. reflexivity.
Qed.

Example trim_strips_both_ends :
  trim (lit " a rooftop chase ") = lit "a rooftop chase".
Proof. reflexivity. Qed.

Example trim_of_blanks : trim [32; 9; 10; 160; 8195] = [].
Proof. reflexivity. Qed.

Lemma filterIndexNe_length {A} (index i : Z) (xs : list A) :
  (length (filterIndexNe index i xs) <= length xs)%nat.
Proof.
  revert i. induction xs as [|x r IH]; intros i; simpl.
  - lia.
  - destruct (i =? index)%Z; simpl; specialize (IH (i + 1)%Z); lia.
Qed.

Lemma filterIndexNe_out_of_range {A} (index i : Z) (xs : list A) :
  (index < i \/ i + Z.of_nat (length xs) <= index)%Z ->
  filterIndexNe index i xs = xs.
Proof.
  revert i. induction xs as [|x r IH]; intros i H; simpl.
  - reflexivity.
  - simpl length in H. destruct (Z.eqb_spec i index) as [E|E].
    + lia.
    + f_equal. apply IH. lia.
Qed.

(** For an index in range, the filter drops that one entry and keeps the
    others in order. *)
Lemma filterIndexNe_in_range {A} (n : nat) (i : Z) (xs : list A) :
  (n < length xs)%nat ->
  filterIndexNe (i + Z.of_nat n) i xs = firstn n xs ++ skipn (S n) xs.
Proof.
  revert i n. induction xs as [|x r IH]; intros i n H; simpl in H.
  - lia.
  - cbn [filterIndexNe]. destruct n as [|n].
    + replace (i + Z.of_nat 0)%Z with i by lia. rewrite Z.eqb_refl.
      cbn [firstn skipn app]. apply filterIndexNe_out_of_range. lia.
    + destruct (Z.eqb_spec i (i + Z.of_nat (S n))) as [E|E]; [lia|].
      change (firstn (S n) (x :: r)) with (x :: firstn n r).
      change (skipn (S (S n)) (x :: r)) with (skipn (S n) r).
      cbn [app]. f_equal.
      replace (i + Z.of_nat (S n))%Z with (i + 1 + Z.of_nat n)%Z by lia.
      apply IH. lia.
Qed.

Lemma filterIndexNe_map {A B} (f : A -> B) (index i : Z) (xs : list A) :
  filterIndexNe index i (map f xs) = map f (filterIndexNe index i xs).
Proof.
  revert i. induction xs as [|x r IH]; intros i; simpl.
  - reflexivity.
  - destruct (i =? index)%Z; simpl; now rewrite IH.
Qed.

Lemma length_firstn_two {A} (l : list A) : (length (firstn 2 l) <= 2)%nat.
Proof. rewrite length_firstn. lia. Qed.

Lemma firstn_two_short {A} (l : list A) :
  (length l <= 2)%nat -> firstn 2 l = l.
Proof. intros H. now apply firstn_all2. Qed.

(** ** Facts about promises *)

Lemma firstRejected_sound {A} (ps : list (Promise A)) t e :
  firstRejected ps = Some (t, e) -> In (Rejected t e) ps.
Proof.
  revert t e. induction ps as [|p r IH]; intros t e; simpl.
  - discriminate.
  - destruct p as [a|t0 e0|].
    + intros H. right. now apply IH.
    + destruct (firstRejected r) as [[t' e']|].
      * destruct (t' <? t0)%nat; intros H; injection H as <- <-.
        -- right. now apply IH.
        -- now left.
      * intros H; injection H as <- <-. now left.
    + intros H. right. now apply IH.
Qed.

Lemma firstRejected_complete {A} (ps : list (Promise A)) t e :
  In (Rejected t e) ps -> exists t' e', firstRejected ps = Some (t', e').
Proof.
  induction ps as [|p r IH]; simpl.
  - contradiction.
  - intros [->|H].
    + destruct (firstRejected r) as [[t' e']|].
      * destruct (t' <? t)%nat; eauto.
      * eauto.
    + destruct (IH H) as (t' & e' & E). rewrite E.
      destruct p as [a|t0 e0|]; eauto.
      destruct (t' <? t0)%nat; eauto.
Qed.

Lemma firstRejected_none_of_fulfilled {A} (vs : list A) :
  firstRejected (map Fulfilled vs) = None.
Proof. induction vs; simpl; auto. Qed.

Lemma allFulfilled_of_fulfilled {A} (vs : list A) :
  allFulfilled (map Fulfilled vs) = Some vs.
Proof. induction vs as [|v r IH]; simpl; [|rewrite IH]; reflexivity. Qed.

Lemma all_of_fulfilled {A} (vs : list A) : all (map Fulfilled vs) = Fulfilled vs.
Proof.
  unfold all.
  now rewrite firstRejected_none_of_fulfilled, allFulfilled_of_fulfilled.
Qed.

(** ** Adding files *)

Section AddFiles.

Variable validate : File -> bool -> Validation.

Lemma reportInvalid_frame (v : Validation) (m : Modal) :
  uploadedFiles (reportInvalid v m) = uploadedFiles m
  /\ previews (reportInvalid v m) = previews m
  /\ pendingPreviews (reportInvalid v m) = pendingPreviews m.
Proof.
  unfold reportInvalid. destruct (error v) as [e|]; [|auto].
  destruct (negb (valid v) && truthy e); auto.
Qed.

Lemma report_all_frame (rs : list (File * Validation)) (m : Modal) :
  let m' := fold_left (fun acc r => reportInvalid (snd r) acc) rs m in
  uploadedFiles m' = uploadedFiles m
  /\ previews m' = previews m
  /\ pendingPreviews m' = pendingPreviews m.
Proof.
  revert m. induction rs as [|r rs IH]; intros m; simpl; [auto|].
  destruct (IH (reportInvalid (snd r) m)) as (-> & -> & ->).
  apply reportInvalid_frame.
Qed.

Lemma report_all_toasts (fs : list File) (m : Modal) :
  toasts
    (fold_left (fun acc r => reportInvalid (snd r) acc)
       (map (fun f => (f, validate f true)) fs) m) =
  toasts m ++ map invalidFileToast (notifiedReasons validate (Some fs)).
Proof.
  unfold notifiedReasons, candidates.
  revert m. induction fs as [|f fs IH]; intros m; simpl.
  - now rewrite app_nil_r.
  - rewrite IH. unfold reportInvalid.
    destruct (error (validate f true)) as [e|]; [|reflexivity].
    destruct (negb (valid (validate f true)) && truthy e); simpl.
    + now rewrite <- app_assoc.
    + reflexivity.
Qed.

Lemma validFiles_filter (fs : list File) :
  map fst
    (filter (fun r : File * Validation => valid (snd r))
       (map (fun f => (f, validate f true)) fs)) =
  validCandidates validate (Some fs).
Proof.
  unfold validCandidates, candidates.
  induction fs as [|f fs IH]; simpl; [reflexivity|].
  destruct (valid (validate f true)); simpl; now rewrite IH.
Qed.

(** The attachment list [handleFiles] leaves. *)
Lemma handleFiles_uploadedFiles (newFiles : option (list File)) (m : Modal) :
  uploadedFiles (handleFiles validate newFiles m) =
  match validCandidates validate newFiles with
  | [] => uploadedFiles m
  | _ :: _ => firstn 2 (uploadedFiles m ++ validCandidates validate newFiles)
  end.
Proof.
  destruct newFiles as [fs|]; [|reflexivity].
  unfold handleFiles. rewrite validFiles_filter.
  destruct (validCandidates validate (Some fs)) as [|f r].
  - simpl. apply report_all_frame.
  - reflexivity.
Qed.

Lemma handleFiles_previews (newFiles : option (list File)) (m : Modal) :
  previews (handleFiles validate newFiles m) = previews m.
Proof.
  destruct newFiles as [fs|]; [|reflexivity].
  unfold handleFiles.
  destruct (length _ =? 0)%nat; simpl; apply report_all_frame.
Qed.

Lemma handleFiles_pendingPreviews (newFiles : option (list File)) (m : Modal) :
  pendingPreviews (handleFiles validate newFiles m) =
  match validCandidates validate newFiles with
  | [] => pendingPreviews m
  | _ :: _ => pendingPreviews m ++ [uploadedFiles (handleFiles validate newFiles m)]
  end.
Proof.
  rewrite handleFiles_uploadedFiles.
  destruct newFiles as [fs|]; [|reflexivity].
  unfold handleFiles. rewrite validFiles_filter.
  destruct (validCandidates validate (Some fs)) as [|f r]; simpl.
  - apply report_all_frame.
  - f_equal. apply report_all_frame.
Qed.

Lemma handleFiles_toasts (newFiles : option (list File)) (m : Modal) :
  toasts (handleFiles validate newFiles m) =
  toasts m ++ map invalidFileToast (notifiedReasons validate newFiles).
Proof.
  destruct newFiles as [fs|]; [|simpl; now rewrite app_nil_r].
  unfold handleFiles.
  destruct (length _ =? 0)%nat; simpl; apply report_all_toasts.
Qed.

End AddFiles.

(** ** Submitting *)

Section Submit.

Variable upload : File -> Promise UploadResult.
Variable handler : GenerateData -> Promise unit.

Lemma handleGenerate_resume_frame (p : str) (files : list File) (m : Modal) :
  uploadedFiles (handleGenerate_resume upload handler p files m) = uploadedFiles m
  /\ previews (handleGenerate_resume upload handler p files m) = previews m
  /\ prompt (handleGenerate_resume upload handler p files m) = prompt m
  /\ pendingPreviews (handleGenerate_resume upload handler p files m)
     = pendingPreviews m.
Proof.
  unfold handleGenerate_resume.
  destruct (uploadAll upload files) as [urls|t e|]; [|simpl; auto|auto].
  destruct (handler _) as [[]|t e|]; simpl; auto.
Qed.

Lemma handleGenerate_frame (m : Modal) :
  uploadedFiles (handleGenerate upload handler m) = uploadedFiles m
  /\ previews (handleGenerate upload handler m) = previews m
  /\ prompt (handleGenerate upload handler m) = prompt m
  /\ pendingPreviews (handleGenerate upload handler m) = pendingPreviews m.
Proof.
  unfold handleGenerate.
  destruct (negb (truthy (trim (prompt m)))); [auto|].
  destruct (handleGenerate_resume_frame (prompt m) (uploadedFiles m)
              (handleGenerate_start m)) as (-> & -> & -> & ->).
  auto.
Qed.

Lemma uploadAll_of_fulfilled (files : list File) (results : list UploadResult) :
  uploadsFulfil upload files results ->
  uploadAll upload files = Fulfilled (map url results).
Proof.
  unfold uploadsFulfil, uploadAll. intros H.
  rewrite <- (map_map upload (then_ url)), H, map_map. simpl.
  rewrite <- (map_map url Fulfilled). apply all_of_fulfilled.
Qed.

Lemma uploadAll_rejected (files : list File) (f : File) t e :
  In f files -> upload f = Rejected t e ->
  exists f' t' e',
    In f' files /\ upload f' = Rejected t' e'
    /\ uploadAll upload files = Rejected t' e'.
Proof.
  intros Hin Hf. unfold uploadAll, all.
  assert (R : In (Rejected t e)
                (map (fun file => then_ url (upload file)) files)).
  { apply in_map_iff. exists f. rewrite Hf. auto. }
  destruct (firstRejected_complete _ _ _ R) as (t' & e' & E).
  rewrite E. apply firstRejected_sound in E.
  apply in_map_iff in E. destruct E as (f' & E & Hin').
  exists f', t', e'. repeat split; auto.
  destruct (upload f') as [a|t0 e0|]; simpl in E; try discriminate.
  now injection E as -> ->.
Qed.

End Submit.

(** ** Removing a file *)

Lemma removeFile_fields (index : Z) (m : Modal) :
  uploadedFiles (removeFile index m) = filterIndexNe index 0 (uploadedFiles m)
  /\ previews (removeFile index m) = filterIndexNe index 0 (previews m)
  /\ showPreview (removeFile index m) = None
  /\ fileInput (removeFile index m) = option_map (fun _ => []) (fileInput m).
Proof.
  unfold removeFile. cbv zeta.
  change (fileInput (setShowPreview _ _)) with (fileInput m).
  destruct (fileInput m) eqn:E; simpl; rewrite ?E; repeat split; reflexivity.
Qed.

(** ** The bound on attachments along every run *)

Section Runs.

Variable validate : File -> bool -> Validation.
Variable preview : File -> str.
Variable upload : File -> Promise UploadResult.
Variable handler : GenerateData -> Promise unit.

Lemma step_attachments_bound (m : Modal) (ev : Event) :
  (length (uploadedFiles m) <= 2)%nat ->
  (length (uploadedFiles (step validate preview upload handler m ev)) <= 2)%nat.
Proof.
  intros H. destruct ev; simpl.
  - unfold resetOnOpen. simpl. lia.
  - exact H.
  - destruct (isGenerating m); exact H.
  - rewrite handleFiles_uploadedFiles.
    destruct (validCandidates validate newFiles);
      [exact H | apply length_firstn_two].
  - unfold handleFiles_resume.
    destruct (nth_error (pendingPreviews m) k); exact H.
  - destruct (isGenerating m); [exact H|].
    destruct (removeFile_fields index m) as (-> & _).
    pose proof (filterIndexNe_length index 0 (uploadedFiles m)). lia.
  - exact H.
  - exact H.
  - unfold submitClick. destruct (submitDisabled m); [exact H|].
    now destruct (handleGenerate_frame upload handler m) as (-> & _).
  - unfold submitShortcut, shortcutCallback.
    destruct (negb (isOpen m) || isGenerating m); [exact H|].
    destruct (isOpen m && negb (isGenerating m) && truthy (trim (prompt m)));
      [|exact H].
    now destruct (handleGenerate_frame upload handler m) as (-> & _).
  - unfold handleOpenChange.
    destruct (negb open && isGenerating m); exact H.
Qed.

Lemma run_attachments_bound (evs : list Event) (m : Modal) :
  (length (uploadedFiles m) <= 2)%nat ->
  (length (uploadedFiles (run validate preview upload handler evs m)) <= 2)%nat.
Proof.
  revert m. induction evs as [|ev evs IH]; intros m H; simpl.
  - exact H.
  - apply IH. now apply step_attachments_bound.
Qed.

Lemma firstn_firstn_app {A} (n : nat) (a b : list A) :
  firstn n (firstn n a ++ b) = firstn n (a ++ b).
Proof.
  revert a. induction n as [|n IH]; intros a; [reflexivity|].
  destruct a as [|x a]; [reflexivity|]. simpl. f_equal. apply IH.
Qed.

Lemma handleFiles_first_two (newFiles : option (list File)) (m : Modal) :
  (length (uploadedFiles m) <= 2)%nat ->
  uploadedFiles (handleFiles validate newFiles m) =
  firstn 2 (uploadedFiles m ++ validCandidates validate newFiles).
Proof.
  intros B. rewrite handleFiles_uploadedFiles.
  destruct (validCandidates validate newFiles) as [|f r]; [|reflexivity].
  rewrite app_nil_r. symmetry. now apply firstn_two_short.
Qed.

(** Add-files calls in a row: the attachments are the first 2 of what was
    there followed by the valid candidates of every batch. *)
Lemma add_files_in_a_row (batches : list (option (list File))) (m : Modal) :
  (length (uploadedFiles m) <= 2)%nat ->
  uploadedFiles
    (run validate preview upload handler (map FilesChosen batches) m) =
  firstn 2 (uploadedFiles m ++ flat_map (validCandidates validate) batches).
Proof.
  revert m. induction batches as [|b rest IH]; intros m B; simpl.
  - rewrite app_nil_r. symmetry. now apply firstn_two_short.
  - rewrite IH.
    + rewrite (handleFiles_first_two b m B), firstn_firstn_app.
      now rewrite app_assoc.
    + rewrite (handleFiles_first_two b m B). apply length_firstn_two.
Qed.

(** C1. After any run of events from the mounted modal, an add-files call
    leaves as attachment list the first 2 entries of the existing
    attachments followed by the valid candidates in arrival order, and the
    list never holds more than 2 entries. In particular a sequence of
    add-files calls on the mounted modal, whatever the number of valid
    candidates in each, leaves the first 2 of all the valid candidates. *)
Theorem add_files_keeps_first_two (evs : list Event) (open : bool)
    (input : option str) (newFiles : option (list File))
    (batches : list (option (list File))) :
  let m := run validate preview upload handler evs (mount open input) in
  uploadedFiles (handleFiles validate newFiles m) =
    firstn 2 (uploadedFiles m ++ validCandidates validate newFiles)
  /\ (length (uploadedFiles (handleFiles validate newFiles m)) <= 2)%nat
  /\ (length (uploadedFiles m) <= 2)%nat
  /\ uploadedFiles
       (run validate preview upload handler (map FilesChosen batches)
          (mount open input)) =
     firstn 2 (flat_map (validCandidates validate) batches).
Proof.
  intros m.
  assert (B : (length (uploadedFiles m) <= 2)%nat).
  { apply run_attachments_bound. simpl. lia. }
  pose proof (handleFiles_first_two newFiles m B) as E.
  split; [exact E|]. split; [|split; [exact B|]].
  - rewrite E. apply length_firstn_two.
  - apply (add_files_in_a_row batches (mount open input)). simpl. lia.
Qed.

End Runs.

(** C7, as amended. An add-files call notifies, one by one and in order, the
    non-empty error of each candidate that is not valid; and it leaves the
    attachments it would leave had the invalid candidates not been in the
    batch. *)
Theorem invalid_files_reported_and_dropped
    (validate : File -> bool -> Validation)
    (newFiles : option (list File)) (m : Modal) :
  toasts (handleFiles validate newFiles m) =
    toasts m ++ map invalidFileToast (notifiedReasons validate newFiles)
  /\ uploadedFiles (handleFiles validate newFiles m) =
     uploadedFiles
       (handleFiles validate (Some (validCandidates validate newFiles)) m).
Proof.
  split; [apply handleFiles_toasts|].
  rewrite !handleFiles_uploadedFiles.
  assert (I : validCandidates validate
                (Some (validCandidates validate newFiles)) =
              validCandidates validate newFiles).
  { unfold validCandidates. simpl.
    induction (candidates newFiles) as [|f r IH]; simpl; [reflexivity|].
    destruct (valid (validate f true)) eqn:V; simpl; [rewrite V|];
      now rewrite ?IH. }
  now rewrite I.
Qed.

(** C7, counterexample. A candidate that fails validation with no error
    message is dropped without any notification. *)
Lemma invalid_file_without_reason_not_reported :
  invalidCandidates Sample.validateSilently (Some [Sample.notes])
    = [Sample.notes]
  /\ toasts (handleFiles Sample.validateSilently (Some [Sample.notes])
               (mount true (Some []))) = []
  /\ ~ reportsEveryInvalid Sample.validateSilently (Some [Sample.notes])
         (mount true (Some [])).
Proof.
  split; [reflexivity|]. split; [reflexivity|].
  unfold reportsEveryInvalid. vm_compute. discriminate.
Qed.

(** C10. [removeFile] is defined for every integer index. An index outside
    the attachment list leaves the attachments unchanged, an index outside
    the preview list leaves the previews unchanged, and whatever the index
    the preview viewer is closed and the file input, when there is one, is
    given the empty value. *)
Theorem remove_out_of_range_only_closes_viewer (index : Z) (m : Modal) :
  ((index < 0 \/ Z.of_nat (length (uploadedFiles m)) <= index)%Z ->
     uploadedFiles (removeFile index m) = uploadedFiles m)
  /\ ((index < 0 \/ Z.of_nat (length (previews m)) <= index)%Z ->
        previews (removeFile index m) = previews m)
  /\ showPreview (removeFile index m) = None
  /\ fileInput (removeFile index m) = option_map (fun _ => []) (fileInput m).
Proof.
  destruct (removeFile_fields index m) as (-> & -> & -> & ->).
  repeat split.
  - intros H. apply filterIndexNe_out_of_range. lia.
  - intros H. apply filterIndexNe_out_of_range. lia.
Qed.

(** C10, witness: index 5 on a modal with one attachment. *)
Lemma remove_out_of_range_only_closes_viewer_at_5 :
  (5 < 0 \/ Z.of_nat (length (uploadedFiles (Sample.drafted [Sample.hero]))) <= 5)%Z
  /\ uploadedFiles (removeFile 5 (Sample.drafted [Sample.hero])) = [Sample.hero]
  /\ showPreview (removeFile 5 (Sample.drafted [Sample.hero])) = None
  /\ fileInput (removeFile 5 (Sample.drafted [Sample.hero])) = Some [].
Proof.
  assert (H : (5 < 0 \/
               Z.of_nat (length (uploadedFiles (Sample.drafted [Sample.hero])))
               <= 5)%Z) by (right; simpl; lia).
  split; [exact H|].
  destruct (remove_out_of_range_only_closes_viewer 5
              (Sample.drafted [Sample.hero])) as (A & _ & C & D).
  split; [exact (A H)|]. split; [exact C|exact D].
Defined.

(** ** Previews and attachments *)

Section Previews.

Variable validate : File -> bool -> Validation.
Variable preview : File -> str.

(** A batch that resolves while the attachments are still the files it was
    started for brings the previews in line with them. *)
Lemma resume_current_batch (k : nat) (m : Modal) :
  nth_error (pendingPreviews m) k = Some (uploadedFiles m) ->
  previewsCorrespond preview (handleFiles_resume preview k m).
Proof.
  intros H. unfold handleFiles_resume, previewsCorrespond. now rewrite H.
Qed.

(** C6, as amended. From a modal whose previews correspond to its
    attachments: opening resets both lists and they correspond; removing at
    any index keeps the correspondence; an add-files call leaves the previews
    of the previous list in place until its batch resolves, and once that
    batch has resolved, nothing else having happened in between, the previews
    correspond to the new attachments. *)
Theorem previews_follow_attachments (m : Modal) :
  previewsCorrespond preview m ->
  (forall isRedrawMode existingPrompt,
      previewsCorrespond preview
        (resetOnOpen isRedrawMode existingPrompt (setIsOpen true m)))
  /\ (forall index, previewsCorrespond preview (removeFile index m))
  /\ (forall newFiles,
        previews (handleFiles validate newFiles m) = previews m
        /\ previewsCorrespond preview
             (handleFiles_resume preview (length (pendingPreviews m))
                (handleFiles validate newFiles m))).
Proof.
  intros H. split; [|split].
  - intros r e. reflexivity.
  - intros index. unfold previewsCorrespond in *.
    destruct (removeFile_fields index m) as (-> & -> & _).
    rewrite H. apply filterIndexNe_map.
  - intros newFiles. split; [apply handleFiles_previews|].
    pose proof (handleFiles_pendingPreviews validate newFiles m) as P.
    pose proof (handleFiles_uploadedFiles validate newFiles m) as U.
    destruct (validCandidates validate newFiles) as [|f r].
    + unfold handleFiles_resume. rewrite P.
      rewrite (proj2 (nth_error_None _ _)) by lia.
      unfold previewsCorrespond.
      now rewrite handleFiles_previews, U.
    + apply resume_current_batch. rewrite P.
      rewrite nth_error_app2 by lia. now rewrite Nat.sub_diag.
Qed.

End Previews.

(** C6, witness: one attachment with its preview, then a second file is
    added and its batch resolves. *)
Lemma previews_follow_attachments_after_second_file :
  previewsCorrespond Sample.previewOf (Sample.drafted [Sample.hero])
  /\ previewsCorrespond Sample.previewOf
       (handleFiles_resume Sample.previewOf 0
          (handleFiles Sample.validateWithReason (Some [Sample.villain])
             (Sample.drafted [Sample.hero]))).
Proof.
  split; [reflexivity|].
  exact (proj2 (proj2 (proj2
           (previews_follow_attachments Sample.validateWithReason
              Sample.previewOf (Sample.drafted [Sample.hero]) eq_refl))
           (Some [Sample.villain]))).
Defined.

(** C6, counterexample. Right after a file is added to an empty modal the
    attachment list holds it while the preview list is still empty. *)
Lemma previews_lag_behind_new_attachment :
  uploadedFiles
    (run Sample.validateWithReason Sample.previewOf Sample.uploadOk
       Sample.generateOk [FilesChosen (Some [Sample.hero])]
       (mount true (Some []))) = [Sample.hero]
  /\ previews
       (run Sample.validateWithReason Sample.previewOf Sample.uploadOk
          Sample.generateOk [FilesChosen (Some [Sample.hero])]
          (mount true (Some []))) = []
  /\ ~ previewsCorrespond Sample.previewOf
         (run Sample.validateWithReason Sample.previewOf Sample.uploadOk
            Sample.generateOk [FilesChosen (Some [Sample.hero])]
            (mount true (Some []))).
Proof.
  split; [reflexivity|]. split; [reflexivity|].
  unfold previewsCorrespond. vm_compute. discriminate.
Qed.

(** Two add-files calls whose batches resolve in the opposite order: the
    second batch sets two previews, then the first sets one. *)
Remark overlapping_batches_last_writer :
  uploadedFiles
    (run Sample.validateWithReason Sample.previewOf Sample.uploadOk
       Sample.generateOk
       [FilesChosen (Some [Sample.hero]); FilesChosen (Some [Sample.villain]);
        PreviewsReady 1; PreviewsReady 0]
       (mount true (Some []))) = [Sample.hero; Sample.villain]
  /\ previews
       (run Sample.validateWithReason Sample.previewOf Sample.uploadOk
          Sample.generateOk
          [FilesChosen (Some [Sample.hero]); FilesChosen (Some [Sample.villain]);
           PreviewsReady 1; PreviewsReady 0]
          (mount true (Some []))) = [Sample.previewOf Sample.hero].
Proof. split; reflexivity. Qed.

(** ** Submitting: outcomes *)

Section SubmitOutcomes.

Variable upload : File -> Promise UploadResult.
Variable handler : GenerateData -> Promise unit.

Lemma truthy_negb (s : str) : truthy s = true -> negb (truthy s) = false.
Proof. now intros ->. Qed.

(** What [handleGenerate] leaves when the joined uploads reject. *)
Lemma submit_uploads_rejected (m : Modal) t e :
  truthy (trim (prompt m)) = true ->
  uploadAll upload (uploadedFiles m) = Rejected t e ->
  handleGenerate upload handler m = handleGenerate_catch e (handleGenerate_start m).
Proof.
  intros P U. unfold handleGenerate, handleGenerate_resume.
  now rewrite (truthy_negb _ P), U.
Qed.

(** What [handleGenerate] leaves when the uploads fulfil. *)
Lemma submit_uploads_fulfilled (m : Modal) (urls : list str) :
  truthy (trim (prompt m)) = true ->
  uploadAll upload (uploadedFiles m) = Fulfilled urls ->
  handleGenerate upload handler m =
    let d := generateData (prompt m) urls in
    let m1 := callOnGenerate d (handleGenerate_start m) in
    match handler d with
    | Rejected _ e => handleGenerate_catch e m1
    | _ => m1
    end.
Proof.
  intros P U. unfold handleGenerate, handleGenerate_resume.
  rewrite (truthy_negb _ P), U. cbv zeta.
  now destruct (handler _).
Qed.

Lemma generateData_urls (p : str) (urls : list str) :
  generateData p urls =
  {| data_prompt := p;
     data_characterUrls :=
       match urls with [] => None | _ :: _ => Some urls end |}.
Proof. now destruct urls. Qed.

(** C2, as amended. A submission with a prompt that is not blank and whose
    uploads all fulfil calls the handler exactly once, with the prompt as
    typed; [characterUrls] holds the [url] of each upload result in
    attachment order when there are attachments and is [undefined] when
    there are none. One upload is started per attachment. *)
Theorem submit_calls_handler_once (m : Modal) (results : list UploadResult) :
  truthy (trim (prompt m)) = true ->
  uploadsFulfil upload (uploadedFiles m) results ->
  onGenerateCalls (handleGenerate upload handler m) =
    onGenerateCalls m ++
    [ {| data_prompt := prompt m;
         data_characterUrls :=
           match uploadedFiles m with
           | [] => None
           | _ :: _ => Some (map url results)
           end |} ]
  /\ length results = length (uploadedFiles m)
  /\ s3Uploads (handleGenerate upload handler m) = s3Uploads m ++ uploadedFiles m.
Proof.
  intros P F.
  assert (L : length results = length (uploadedFiles m)).
  { unfold uploadsFulfil in F. apply (f_equal (@length _)) in F.
    now rewrite !length_map in F. }
  rewrite (submit_uploads_fulfilled m _ P (uploadAll_of_fulfilled _ _ _ F)).
  cbv zeta. rewrite generateData_urls.
  assert (D : match map url results with
              | [] => None
              | _ :: _ => Some (map url results)
              end =
              match uploadedFiles m with
              | [] => @None (list str)
              | _ :: _ => Some (map url results)
              end).
  { destruct results, (uploadedFiles m); simpl in *; try discriminate;
      reflexivity. }
  rewrite D. repeat split; try exact L; now destruct (handler _).
Qed.

(** C3. During a submission with a prompt that is not blank: if the upload
    of any attachment rejects, the handler is not called and the submission
    fails with the rejection of one of the uploads; and whenever the
    submission fails, by an upload or by the handler, [isGenerating] is back
    to false and one notification is added whose description is the message
    of the failure when it is an [Error] and the fallback text otherwise. *)
Theorem failed_submit_reverts_and_notifies (m : Modal) :
  truthy (trim (prompt m)) = true ->
  (forall f t e,
      In f (uploadedFiles m) -> upload f = Rejected t e ->
      onGenerateCalls (handleGenerate upload handler m) = onGenerateCalls m
      /\ exists f' t' e',
           In f' (uploadedFiles m) /\ upload f' = Rejected t' e'
           /\ submissionFails upload handler m e')
  /\ (forall failure,
        submissionFails upload handler m failure ->
        isGenerating (handleGenerate upload handler m) = false
        /\ toasts (handleGenerate upload handler m) = toasts m ++ [generationFailedToast failure]
        /\ description (generationFailedToast failure) =
           match failure with
           | ErrorInstance message => message
           | NonError _ => lit "Failed to generate page. Please try again."
           end).
Proof.
  intros P. split.
  - intros f t e Hin Hf.
    destruct (uploadAll_rejected upload _ f t e Hin Hf)
      as (f' & t' & e' & Hin' & Hf' & U).
    rewrite (submit_uploads_rejected m t' e' P U). split; [reflexivity|].
    exists f', t', e'. repeat split; auto. left. now exists t'.
  - intros failure [(t & U)|(urls & t & U & H)].
    + rewrite (submit_uploads_rejected m t failure P U).
      repeat split.
    + rewrite (submit_uploads_fulfilled m urls P U). cbv zeta. rewrite H.
      repeat split.
Qed.

(** C4, as amended. When the uploads all fulfil and the handler fulfils,
    [handleGenerate] ends with [isGenerating] still true, as it was set
    before the uploads, and adds no notification; the reset that runs when
    the modal opens puts it back to false. *)
Theorem successful_submit_stays_generating (m : Modal)
    (results : list UploadResult) :
  truthy (trim (prompt m)) = true ->
  uploadsFulfil upload (uploadedFiles m) results ->
  handler (generateData (prompt m) (map url results)) = Fulfilled tt ->
  isGenerating (handleGenerate_start m) = true
  /\ isGenerating (handleGenerate upload handler m) = true
  /\ toasts (handleGenerate upload handler m) = toasts m
  /\ (forall isRedrawMode existingPrompt,
        isGenerating
          (resetOnOpen isRedrawMode existingPrompt (setIsOpen true (handleGenerate upload handler m)))
        = false).
Proof.
  intros P F H.
  rewrite (submit_uploads_fulfilled m _ P (uploadAll_of_fulfilled _ _ _ F)).
  cbv zeta. rewrite H. repeat split.
Qed.

(** C9. A submission that fails, by an upload or by the handler, leaves the
    attachment list, the preview list and the prompt as they were. *)
Theorem failed_submit_keeps_attachments (m : Modal) (failure : Thrown) :
  submissionFails upload handler m failure ->
  uploadedFiles (handleGenerate upload handler m) = uploadedFiles m
  /\ previews (handleGenerate upload handler m) = previews m
  /\ prompt (handleGenerate upload handler m) = prompt m.
Proof.
  intros _.
  destruct (handleGenerate_frame upload handler m) as (A & B & C & _).
  auto.
Qed.

(** C5. With a prompt that is blank after trimming, [handleGenerate] returns
    at once; and with such a prompt, or while a generation is running,
    neither the submit button nor the keyboard shortcut (nor its callback
    alone) does anything: the modal is left as it was, so [isGenerating] is
    not set, no upload is started and the handler is not called. *)
Theorem submit_ignored_when_blank_or_generating (m : Modal) :
  trim (prompt m) = [] \/ isGenerating m = true ->
  (trim (prompt m) = [] -> handleGenerate upload handler m = m)
  /\ submitClick upload handler m = m
  /\ submitShortcut upload handler m = m
  /\ shortcutCallback upload handler m = m.
Proof.
  intros H.
  assert (K : shortcutCallback upload handler m = m).
  { unfold shortcutCallback. destruct H as [E|G].
    - rewrite E. simpl. now rewrite andb_false_r.
    - rewrite G. simpl. now rewrite andb_false_r. }
  split; [|split; [|split; [|exact K]]].
  - intros E. unfold handleGenerate. now rewrite E.
  - unfold submitClick, submitDisabled, handleGenerate.
    destruct H as [E|G].
    + now rewrite E.
    + rewrite G, orb_true_r. reflexivity.
  - unfold submitShortcut. rewrite K.
    now destruct (negb (isOpen m) || isGenerating m).
Qed.

End SubmitOutcomes.

(** ** Submitting: concrete runs *)

(** C2, witness: two attachments, both uploads fulfil. *)
Lemma submit_calls_handler_once_two_files :
  truthy (trim (prompt (Sample.drafted [Sample.hero; Sample.villain]))) = true
  /\ uploadsFulfil Sample.uploadOk
       (uploadedFiles (Sample.drafted [Sample.hero; Sample.villain]))
       [Sample.stored Sample.hero; Sample.stored Sample.villain]
  /\ onGenerateCalls
       (handleGenerate Sample.uploadOk Sample.generateOk
          (Sample.drafted [Sample.hero; Sample.villain])) =
     [ {| data_prompt := lit " a rooftop chase ";
          data_characterUrls :=
            Some [lit "https://bucket.s3/hero.png";
                  lit "https://bucket.s3/villain.jpg"] |} ].
Proof.
  split; [reflexivity|]. split; [reflexivity|].
  exact (proj1 (submit_calls_handler_once Sample.uploadOk Sample.generateOk
                  (Sample.drafted [Sample.hero; Sample.villain])
                  [Sample.stored Sample.hero; Sample.stored Sample.villain]
                  eq_refl eq_refl)).
Defined.

(** C2, counterexample. The prompt is not blank, the upload of the second
    attachment rejects, and the handler is not called at all. *)
Lemma submit_with_failed_upload_never_calls_handler :
  truthy (trim (prompt (Sample.drafted [Sample.hero; Sample.villain]))) = true
  /\ Sample.uploadVillainFails Sample.villain
     = Rejected 1 (ErrorInstance (lit "Upload failed"))
  /\ onGenerateCalls
       (handleGenerate Sample.uploadVillainFails Sample.generateOk
          (Sample.drafted [Sample.hero; Sample.villain])) = [].
Proof. repeat split. Qed.

(** C3, witness: the upload of the second of two attachments rejects with
    an [Error]; and, with no attachment, a handler that rejects with a
    string. *)
Lemma failed_submit_reverts_and_notifies_samples :
  (truthy (trim (prompt (Sample.drafted [Sample.hero; Sample.villain]))) = true
   /\ onGenerateCalls
        (handleGenerate Sample.uploadVillainFails Sample.generateOk
           (Sample.drafted [Sample.hero; Sample.villain])) = []
   /\ isGenerating
        (handleGenerate Sample.uploadVillainFails Sample.generateOk
           (Sample.drafted [Sample.hero; Sample.villain])) = false
   /\ map description
        (toasts
           (handleGenerate Sample.uploadVillainFails Sample.generateOk
              (Sample.drafted [Sample.hero; Sample.villain])))
      = [lit "Upload failed"])
  /\ (isGenerating
        (handleGenerate Sample.uploadOk Sample.generateThrowsString
           (Sample.drafted [])) = false
      /\ map description
           (toasts
              (handleGenerate Sample.uploadOk Sample.generateThrowsString
                 (Sample.drafted [])))
         = [lit "Failed to generate page. Please try again."]).
Proof.
  split.
  - destruct (failed_submit_reverts_and_notifies Sample.uploadVillainFails
                Sample.generateOk
                (Sample.drafted [Sample.hero; Sample.villain]) eq_refl)
      as (U & F).
    destruct (U Sample.villain 1%nat (ErrorInstance (lit "Upload failed"))
                (or_intror (or_introl eq_refl)) eq_refl) as (N & _).
    destruct (F (ErrorInstance (lit "Upload failed"))
                (or_introl (ex_intro _ 1%nat eq_refl))) as (G & T & _).
    split; [reflexivity|]. split; [exact N|]. split; [exact G|].
    rewrite T. reflexivity.
  - destruct (failed_submit_reverts_and_notifies Sample.uploadOk
                Sample.generateThrowsString (Sample.drafted []) eq_refl)
      as (_ & F).
    destruct (F (NonError (lit "quota"))
                (or_intror
                   (ex_intro _ []
                      (ex_intro _ 5%nat (conj eq_refl eq_refl)))))
      as (G & T & _).
    split; [exact G|]. rewrite T. reflexivity.
Defined.

(** C4, witness: no attachment, the handler fulfils. *)
Lemma successful_submit_stays_generating_no_files :
  truthy (trim (prompt (Sample.drafted []))) = true
  /\ uploadsFulfil Sample.uploadOk (uploadedFiles (Sample.drafted [])) []
  /\ isGenerating
       (handleGenerate Sample.uploadOk Sample.generateOk (Sample.drafted []))
     = true
  /\ isGenerating
       (resetOnOpen false []
          (setIsOpen true
             (handleGenerate Sample.uploadOk Sample.generateOk
                (Sample.drafted [])))) = false.
Proof.
  split; [reflexivity|]. split; [reflexivity|].
  destruct (successful_submit_stays_generating Sample.uploadOk
              Sample.generateOk (Sample.drafted []) [] eq_refl eq_refl eq_refl)
    as (_ & G & _ & R).
  split; [exact G|exact (R false [])].
Defined.

(** C4, counterexample. One attachment whose upload fulfils and a handler
    that fulfils: the handler has been called once and [isGenerating] is
    still true when [handleGenerate] is over. *)
Lemma successful_submit_not_back_to_idle :
  uploadsFulfil Sample.uploadOk
    (uploadedFiles (Sample.drafted [Sample.hero])) [Sample.stored Sample.hero]
  /\ Sample.generateOk
       (generateData (prompt (Sample.drafted [Sample.hero]))
          [url (Sample.stored Sample.hero)]) = Fulfilled tt
  /\ length
       (onGenerateCalls
          (handleGenerate Sample.uploadOk Sample.generateOk
             (Sample.drafted [Sample.hero]))) = 1%nat
  /\ isGenerating (Sample.drafted [Sample.hero]) = false
  /\ isGenerating
       (handleGenerate Sample.uploadOk Sample.generateOk
          (Sample.drafted [Sample.hero])) = true.
Proof. repeat split. Qed.

(** C5, witness: a prompt of blanks, and a modal already generating. *)
Lemma submit_ignored_when_blank_or_generating_samples :
  (trim (prompt (setPrompt (lit "   ") (Sample.drafted [Sample.hero]))) = []
   /\ handleGenerate Sample.uploadOk Sample.generateOk
        (setPrompt (lit "   ") (Sample.drafted [Sample.hero]))
      = setPrompt (lit "   ") (Sample.drafted [Sample.hero])
   /\ submitClick Sample.uploadOk Sample.generateOk
        (setPrompt (lit "   ") (Sample.drafted [Sample.hero]))
      = setPrompt (lit "   ") (Sample.drafted [Sample.hero]))
  /\ (isGenerating (setIsGenerating true (Sample.drafted [Sample.hero])) = true
      /\ submitClick Sample.uploadOk Sample.generateOk
           (setIsGenerating true (Sample.drafted [Sample.hero]))
         = setIsGenerating true (Sample.drafted [Sample.hero])
      /\ submitShortcut Sample.uploadOk Sample.generateOk
           (setIsGenerating true (Sample.drafted [Sample.hero]))
         = setIsGenerating true (Sample.drafted [Sample.hero])).
Proof.
  split.
  - destruct (submit_ignored_when_blank_or_generating Sample.uploadOk
                Sample.generateOk
                (setPrompt (lit "   ") (Sample.drafted [Sample.hero]))
                (or_introl eq_refl)) as (H & C & _).
    split; [reflexivity|]. split; [exact (H eq_refl)|exact C].
  - destruct (submit_ignored_when_blank_or_generating Sample.uploadOk
                Sample.generateOk
                (setIsGenerating true (Sample.drafted [Sample.hero]))
                (or_intror eq_refl)) as (_ & C & K & _).
    split; [reflexivity|]. split; [exact C|exact K].
Defined.

(** C9, witness: the upload of the second of two attachments rejects. *)
Lemma failed_submit_keeps_attachments_sample :
  submissionFails Sample.uploadVillainFails Sample.generateOk
    (Sample.drafted [Sample.hero; Sample.villain])
    (ErrorInstance (lit "Upload failed"))
  /\ uploadedFiles
       (handleGenerate Sample.uploadVillainFails Sample.generateOk
          (Sample.drafted [Sample.hero; Sample.villain]))
     = [Sample.hero; Sample.villain]
  /\ previews
       (handleGenerate Sample.uploadVillainFails Sample.generateOk
          (Sample.drafted [Sample.hero; Sample.villain]))
     = [Sample.previewOf Sample.hero; Sample.previewOf Sample.villain].
Proof.
  assert (F : submissionFails Sample.uploadVillainFails Sample.generateOk
                (Sample.drafted [Sample.hero; Sample.villain])
                (ErrorInstance (lit "Upload failed")))
    by (left; exists 1%nat; reflexivity).
  split; [exact F|].
  destruct (failed_submit_keeps_attachments Sample.uploadVillainFails
              Sample.generateOk _ _ F) as (A & B & _).
  split; [exact A|exact B].
Defined.

(** ** The free-tier rate limit *)

Section FreeTier.

Import RateLimit.

Lemma ms_seven_days : ms "7 d" = Some sevenDays.
Proof. vm_compute. reflexivity. Qed.

Lemma limit_free_tier (subject : string) (now : N) (st : Store) :
  limit freeTierRateLimit subject now st =
  Some (limitFixedWindow 3 sevenDays subject now st).
Proof.
  unfold limit, freeTierRateLimit, fixedWindow. cbn [limiter].
  now rewrite ms_seven_days.
Qed.

Lemma increment_same (subject : string) (bucket : N) (st : Store) :
  increment subject bucket st subject bucket = st subject bucket + 1.
Proof. unfold increment. now rewrite String.eqb_refl, N.eqb_refl. Qed.

Lemma increment_other (subject other : string) (bucket b : N) (st : Store) :
  other <> subject -> increment subject bucket st other b = st other b.
Proof.
  intros H. unfold increment.
  destruct (String.eqb_spec other subject); [contradiction|reflexivity].
Qed.

Lemma limits_in_one_window (subject : string) (w : N) (times : list N) :
  forall (st : Store) (used : N),
    st subject w = used ->
    Forall (fun now => now / sevenDays = w) times ->
    exists st',
      limits freeTierRateLimit subject times st =
        Some (map (fun i => used + N.of_nat i + 1 <=? 3)
                (seq 0 (length times)), st')
      /\ forall other b, other <> subject -> st' other b = st other b.
Proof.
  induction times as [|now later IH]; intros st used U F.
  - exists st. split; [reflexivity|auto].
  - inversion F as [|? ? W F']; subst.
    cbn [limits]. rewrite limit_free_tier. unfold limitFixedWindow.
    set (st1 := increment subject (now / sevenDays) st).
    assert (U1 : st1 subject (now / sevenDays) = st subject (now / sevenDays) + 1)
      by apply increment_same.
    destruct (IH st1 _ U1 F') as (st' & E & O).
    rewrite E. exists st'. split.
    + f_equal. f_equal. cbn [length seq map]. f_equal.
      * rewrite U1. f_equal. lia.
      * rewrite <- seq_shift, map_map. apply map_ext. intros i.
        f_equal. lia.
    + intros other b H. rewrite (O other b H).
      now apply increment_other.
Qed.

(** C8. [freeTierRateLimit] is built with the fixed-window algorithm, 3
    tokens and the window ["7 d"], which is 7 days long. So, of the
    operations of one subject that fall in one 7-day window not used yet,
    the first 3 are allowed and every later one is refused; the counts of
    the other subjects are left alone. *)
Theorem free_tier_allows_three_per_week (subject : string) (w : N)
    (times : list N) (st : Store) :
  st subject w = 0 ->
  Forall (fun now => now / sevenDays = w) times ->
  limiter freeTierRateLimit = FixedWindow 3 "7 d"
  /\ ms "7 d" = Some (7 * 24 * 60 * 60 * 1000)
  /\ exists st',
       limits freeTierRateLimit subject times st =
         Some (map (fun i => (i <? 3)%nat) (seq 0 (length times)), st')
       /\ forall other b, other <> subject -> st' other b = st other b.
Proof.
  intros U F. split; [reflexivity|]. split; [apply ms_seven_days|].
  destruct (limits_in_one_window subject w times st 0 U F) as (st' & E & O).
  exists st'. split; [|exact O].
  rewrite E. f_equal. f_equal. apply map_ext. intros i.
  destruct (Nat.ltb_spec i 3); [apply N.leb_le|apply N.leb_gt]; lia.
Qed.

End FreeTier.

(** C8, witness: four operations of one subject in the first week, the last
    of them a millisecond before the week ends. *)
Lemma free_tier_fourth_operation_refused :
  RateLimit.emptyStore "user_1"%string 0 = 0
  /\ Forall (fun now => now / RateLimit.sevenDays = 0)
       [0; 1000; 86400000; 604799999]
  /\ exists st',
       RateLimit.limits RateLimit.freeTierRateLimit "user_1"
         [0; 1000; 86400000; 604799999] RateLimit.emptyStore =
       Some ([true; true; true; false], st').
Proof.
  assert (F : Forall (fun now => now / RateLimit.sevenDays = 0)
                [0; 1000; 86400000; 604799999])
    by (repeat constructor).
  split; [reflexivity|]. split; [exact F|].
  destruct (free_tier_allows_three_per_week "user_1" 0
              [0; 1000; 86400000; 604799999] RateLimit.emptyStore eq_refl F)
    as (_ & _ & st' & E & _).
  exists st'. exact E.
Defined.

(** ** More on adding files *)

Lemma withToasts_nil (m : Modal) : withToasts [] m = m.
Proof. destruct m. unfold withToasts. simpl. now rewrite app_nil_r. Qed.

Lemma withToasts_app (a b : list Toast) (m : Modal) :
  withToasts b (withToasts a m) = withToasts (a ++ b) m.
Proof. unfold withToasts. simpl. now rewrite app_assoc. Qed.

Section AddFilesMore.

Variable validate : File -> bool -> Validation.

Lemma report_all_withToasts (fs : list File) (m : Modal) :
  fold_left (fun acc r => reportInvalid (snd r) acc)
    (map (fun f => (f, validate f true)) fs) m =
  withToasts (map invalidFileToast (notifiedReasons validate (Some fs))) m.
Proof.
  unfold notifiedReasons, candidates.
  revert m. induction fs as [|f fs IH]; intros m; simpl.
  - symmetry. apply withToasts_nil.
  - rewrite IH, map_app, <- withToasts_app. f_equal.
    unfold reportInvalid.
    destruct (error (validate f true)) as [e|];
      [|symmetry; apply withToasts_nil].
    destruct (negb (valid (validate f true)) && truthy e);
      [reflexivity|symmetry; apply withToasts_nil].
Qed.

(** [handleFiles] in one expression: the notifications, then, with a valid
    candidate, the new attachments and the preview batch asked for. *)
Lemma handleFiles_eq (newFiles : option (list File)) (m : Modal) :
  handleFiles validate newFiles m =
  match validCandidates validate newFiles with
  | [] =>
      withToasts (map invalidFileToast (notifiedReasons validate newFiles)) m
  | _ :: _ =>
      setPendingPreviews
        (pendingPreviews m ++
         [firstn 2 (uploadedFiles m ++ validCandidates validate newFiles)])
        (setUploadedFiles
           (firstn 2 (uploadedFiles m ++ validCandidates validate newFiles))
           (withToasts
              (map invalidFileToast (notifiedReasons validate newFiles)) m))
  end.
Proof.
  destruct newFiles as [fs|]; [|symmetry; apply withToasts_nil].
  unfold handleFiles. rewrite validFiles_filter, report_all_withToasts.
  now destruct (validCandidates validate (Some fs)).
Qed.

Lemma notifiedReasons_truthy (newFiles : option (list File)) (e : str) :
  In e (notifiedReasons validate newFiles) -> truthy e = true.
Proof.
  unfold notifiedReasons. intros H. apply in_flat_map in H.
  destruct H as (f & _ & H).
  destruct (error (validate f true)) as [e'|]; [|contradiction].
  destruct (negb (valid (validate f true))); simpl in H; [|contradiction].
  destruct (truthy e') eqn:T; simpl in H; [|contradiction].
  destruct H as [<-|[]]. exact T.
Qed.

Lemma notifiedReasons_all_valid (newFiles : option (list File)) :
  invalidCandidates validate newFiles = [] ->
  notifiedReasons validate newFiles = [].
Proof.
  unfold invalidCandidates, notifiedReasons.
  induction (candidates newFiles) as [|f fs IH]; simpl; [reflexivity|].
  destruct (valid (validate f true)); simpl.
  - intros H. rewrite (IH H). now destruct (error (validate f true)).
  - discriminate.
Qed.

(** X1. An add-files call none of whose candidates is valid only adds the
    notifications: attachments, previews and pending batches stay, and no
    preview batch is started. With no candidate at all ([null] or an empty
    selection) the modal is left as it was. *)
Theorem add_files_without_valid_candidate
    (newFiles : option (list File)) (m : Modal) :
  validCandidates validate newFiles = [] ->
  handleFiles validate newFiles m =
    withToasts (map invalidFileToast (notifiedReasons validate newFiles)) m
  /\ (candidates newFiles = [] -> handleFiles validate newFiles m = m).
Proof.
  intros V. rewrite handleFiles_eq, V. split; [reflexivity|].
  intros C. unfold notifiedReasons. rewrite C. apply withToasts_nil.
Qed.

(** X2. With 2 attachments already there, an add-files call leaves the
    attachments as they are: the valid candidates are dropped, and when every
    candidate is valid nothing is notified about it. *)
Theorem add_files_when_full (newFiles : option (list File)) (m : Modal) :
  length (uploadedFiles m) = 2%nat ->
  uploadedFiles (handleFiles validate newFiles m) = uploadedFiles m
  /\ (invalidCandidates validate newFiles = [] ->
      toasts (handleFiles validate newFiles m) = toasts m).
Proof.
  intros L. split.
  - rewrite handleFiles_uploadedFiles.
    destruct (validCandidates validate newFiles) as [|f r]; [reflexivity|].
    rewrite firstn_app, L, Nat.sub_diag. simpl firstn at 2.
    rewrite app_nil_r. apply firstn_all2. lia.
  - intros I. rewrite handleFiles_toasts, (notifiedReasons_all_valid _ I).
    apply app_nil_r.
Qed.

End AddFilesMore.

(** X1, witness: a text file offered to a modal holding one attachment. *)
Lemma add_files_without_valid_candidate_text_file :
  validCandidates Sample.validateWithReason (Some [Sample.notes]) = []
  /\ uploadedFiles
       (handleFiles Sample.validateWithReason (Some [Sample.notes])
          (Sample.drafted [Sample.hero])) = [Sample.hero]
  /\ pendingPreviews
       (handleFiles Sample.validateWithReason (Some [Sample.notes])
          (Sample.drafted [Sample.hero])) = []
  /\ map description
       (toasts
          (handleFiles Sample.validateWithReason (Some [Sample.notes])
             (Sample.drafted [Sample.hero])))
     = [lit "Please upload an image"].
Proof.
  split; [reflexivity|].
  destruct (add_files_without_valid_candidate Sample.validateWithReason
              (Some [Sample.notes]) (Sample.drafted [Sample.hero]) eq_refl)
    as (E & _).
  rewrite E. repeat split.
Defined.

(** X2, witness: a third image offered to a modal holding two. *)
Lemma add_files_when_full_third_image :
  length (uploadedFiles (Sample.drafted [Sample.hero; Sample.villain]))
    = 2%nat
  /\ uploadedFiles
       (handleFiles Sample.validateWithReason (Some [Sample.hero])
          (Sample.drafted [Sample.hero; Sample.villain]))
     = [Sample.hero; Sample.villain]
  /\ toasts
       (handleFiles Sample.validateWithReason (Some [Sample.hero])
          (Sample.drafted [Sample.hero; Sample.villain])) = [].
Proof.
  split; [reflexivity|].
  destruct (add_files_when_full Sample.validateWithReason (Some [Sample.hero])
              (Sample.drafted [Sample.hero; Sample.villain]) eq_refl)
    as (A & B).
  split; [exact A|exact (B eq_refl)].
Defined.

(** ** More on removing a file *)

(** X3. Removing at an index inside both lists drops exactly the attachment
    and the preview at that index and keeps the others in order, so each list
    is one shorter. *)
Theorem remove_in_range (n : nat) (m : Modal) :
  (n < length (uploadedFiles m))%nat ->
  (n < length (previews m))%nat ->
  uploadedFiles (removeFile (Z.of_nat n) m) =
    firstn n (uploadedFiles m) ++ skipn (S n) (uploadedFiles m)
  /\ previews (removeFile (Z.of_nat n) m) =
     firstn n (previews m) ++ skipn (S n) (previews m)
  /\ S (length (uploadedFiles (removeFile (Z.of_nat n) m)))
     = length (uploadedFiles m)
  /\ S (length (previews (removeFile (Z.of_nat n) m))) = length (previews m).
Proof.
  intros A B.
  destruct (removeFile_fields (Z.of_nat n) m) as (-> & -> & _).
  pose proof (filterIndexNe_in_range n 0 (uploadedFiles m) A) as E1.
  pose proof (filterIndexNe_in_range n 0 (previews m) B) as E2.
  rewrite Z.add_0_l in E1, E2. rewrite E1, E2.
  repeat split; rewrite length_app, length_firstn, length_skipn; lia.
Qed.

(** X3, witness: the first of two attachments is removed. *)
Lemma remove_in_range_first_of_two :
  (0 < length (uploadedFiles (Sample.drafted [Sample.hero; Sample.villain])))%nat
  /\ (0 < length (previews (Sample.drafted [Sample.hero; Sample.villain])))%nat
  /\ uploadedFiles
       (removeFile 0 (Sample.drafted [Sample.hero; Sample.villain]))
     = [Sample.villain]
  /\ previews (removeFile 0 (Sample.drafted [Sample.hero; Sample.villain]))
     = [Sample.previewOf Sample.villain].
Proof.
  assert (A : (0 < length (uploadedFiles
                 (Sample.drafted [Sample.hero; Sample.villain])))%nat)
    by (simpl; lia).
  assert (B : (0 < length (previews
                 (Sample.drafted [Sample.hero; Sample.villain])))%nat)
    by (simpl; lia).
  split; [exact A|]. split; [exact B|].
  destruct (remove_in_range 0 (Sample.drafted [Sample.hero; Sample.villain])
              A B) as (E1 & E2 & _).
  split; [exact E1|exact E2].
Defined.

(** ** More on submitting *)

Lemma allFulfilled_length {A} (ps : list (Promise A)) (vs : list A) :
  allFulfilled ps = Some vs -> length vs = length ps.
Proof.
  revert vs. induction ps as [|p r IH]; intros vs; simpl.
  - now intros [= <-].
  - destruct p as [a| |]; try discriminate.
    destruct (allFulfilled r) as [ws|]; [|discriminate].
    intros [= <-]. simpl. now rewrite (IH ws).
Qed.

Lemma all_fulfilled_length {A} (ps : list (Promise A)) (vs : list A) :
  all ps = Fulfilled vs -> length vs = length ps.
Proof.
  unfold all. destruct (firstRejected ps) as [[t e]|]; [discriminate|].
  destruct (allFulfilled ps) as [ws|] eqn:E; [|discriminate].
  intros [= <-]. now apply allFulfilled_length.
Qed.

Section SubmitMore.

Variable upload : File -> Promise UploadResult.
Variable handler : GenerateData -> Promise unit.

Lemma uploadAll_length (files : list File) (urls : list str) :
  uploadAll upload files = Fulfilled urls -> length urls = length files.
Proof.
  intros H. apply all_fulfilled_length in H. now rewrite length_map in H.
Qed.

(** The ways [handleGenerate] can end. *)
Lemma handleGenerate_cases (m : Modal) :
  (truthy (trim (prompt m)) = false /\ handleGenerate upload handler m = m)
  \/ (truthy (trim (prompt m)) = true
      /\ (handleGenerate upload handler m = handleGenerate_start m
          \/ (exists e,
                handleGenerate upload handler m =
                handleGenerate_catch e (handleGenerate_start m))
          \/ (exists urls,
                uploadAll upload (uploadedFiles m) = Fulfilled urls
                /\ (handleGenerate upload handler m =
                      callOnGenerate (generateData (prompt m) urls)
                        (handleGenerate_start m)
                    \/ exists e,
                         handleGenerate upload handler m =
                         handleGenerate_catch e
                           (callOnGenerate (generateData (prompt m) urls)
                              (handleGenerate_start m)))))).
Proof.
  unfold handleGenerate, handleGenerate_resume.
  destruct (truthy (trim (prompt m))); simpl; [right|left; auto].
  split; [reflexivity|].
  destruct (uploadAll upload (uploadedFiles m)) as [urls|t e|]; eauto.
  right. right. exists urls. split; [reflexivity|].
  destruct (handler _) as [u|t e|]; eauto.
Qed.

Lemma handleGenerate_s3Uploads (m : Modal) :
  s3Uploads (handleGenerate upload handler m) =
  s3Uploads m ++ (if truthy (trim (prompt m)) then uploadedFiles m else []).
Proof.
  destruct (handleGenerate_cases m)
    as [(P & ->)|(P & [->|[(e & ->)|(urls & _ & [->|(e & ->)])]])];
    rewrite P; simpl; now rewrite ?app_nil_r.
Qed.

(** X4. A submission with a prompt that is not blank starts one upload per
    attachment, in attachment order, whatever becomes of the uploads and of
    the handler: a rejecting upload does not keep the others from being
    started, and the handler is called at most once. With a blank prompt no
    upload is started. *)
Theorem submit_starts_every_upload (m : Modal) :
  s3Uploads (handleGenerate upload handler m) =
    s3Uploads m ++ (if truthy (trim (prompt m)) then uploadedFiles m else [])
  /\ (length (onGenerateCalls (handleGenerate upload handler m))
      <= S (length (onGenerateCalls m)))%nat.
Proof.
  split; [apply handleGenerate_s3Uploads|].
  destruct (handleGenerate_cases m)
    as [(P & ->)|(P & [->|[(e & ->)|(urls & _ & [->|(e & ->)])]])];
    simpl; rewrite ?length_app; simpl; lia.
Qed.

Lemma handleGenerate_onCloseCalls (m : Modal) :
  onCloseCalls (handleGenerate upload handler m) = onCloseCalls m.
Proof.
  destruct (handleGenerate_cases m)
    as [(P & ->)|(P & [->|[(e & ->)|(urls & _ & [->|(e & ->)])]])];
    reflexivity.
Qed.

Lemma generateData_wellFormed (p : str) (urls : list str) :
  truthy (trim p) = true -> (length urls <= 2)%nat ->
  wellFormedData (generateData p urls).
Proof.
  intros P L. split; [exact P|]. simpl.
  destruct urls as [|u r]; simpl; [exact I|]. simpl in L. lia.
Qed.

Lemma handleGenerate_wellFormed (m : Modal) :
  (length (uploadedFiles m) <= 2)%nat ->
  Forall wellFormedData (onGenerateCalls m) ->
  Forall wellFormedData (onGenerateCalls (handleGenerate upload handler m)).
Proof.
  intros L F.
  destruct (handleGenerate_cases m)
    as [(P & ->)|(P & [->|[(e & ->)|(urls & U & [->|(e & ->)])]])];
    simpl; try exact F;
    (apply Forall_app; split; [exact F|]; constructor; [|constructor];
     apply generateData_wellFormed; [exact P|];
     rewrite (uploadAll_length _ _ U); exact L).
Qed.

Lemma generationFailedToast_modal (e : Thrown) :
  modalToast (generationFailedToast e).
Proof. unfold modalToast. simpl. auto. Qed.

Lemma handleGenerate_modalToasts (m : Modal) :
  Forall modalToast (toasts m) ->
  Forall modalToast (toasts (handleGenerate upload handler m)).
Proof.
  intros F.
  destruct (handleGenerate_cases m)
    as [(P & ->)|(P & [->|[(e & ->)|(urls & U & [->|(e & ->)])]])];
    simpl; try exact F;
    (apply Forall_app; split; [exact F|]; constructor; [|constructor];
     apply generationFailedToast_modal).
Qed.

(** X5. After a failed submission the modal can be submitted again, and the
    second attempt starts from scratch: every attachment is uploaded again,
    and when these uploads fulfil the handler is called with the prompt and,
    for the attachments, the URLs of the second uploads. *)
Theorem retry_after_failure_uploads_again
    (upload2 : File -> Promise UploadResult)
    (handler2 : GenerateData -> Promise unit)
    (m : Modal) (failure : Thrown) (results : list UploadResult) :
  truthy (trim (prompt m)) = true ->
  submissionFails upload handler m failure ->
  uploadsFulfil upload2 (uploadedFiles m) results ->
  let failed := handleGenerate upload handler m in
  submitDisabled failed = false
  /\ s3Uploads (submitClick upload2 handler2 failed) =
     s3Uploads m ++ uploadedFiles m ++ uploadedFiles m
  /\ onGenerateCalls (submitClick upload2 handler2 failed) =
     onGenerateCalls failed ++
     [generateData (prompt m) (map url results)].
Proof.
  intros P S F failed.
  destruct (handleGenerate_frame upload handler m) as (EU & _ & EP & _).
  fold failed in EU, EP.
  assert (G : isGenerating failed = false).
  { unfold failed. destruct S as [(t & U)|(urls & t & U & H)].
    - now rewrite (submit_uploads_rejected upload handler m t failure P U).
    - rewrite (submit_uploads_fulfilled upload handler m urls P U).
      cbv zeta. now rewrite H. }
  assert (D : submitDisabled failed = false).
  { unfold submitDisabled. now rewrite EP, P, G. }
  assert (P' : truthy (trim (prompt failed)) = true) by now rewrite EP.
  assert (F' : uploadsFulfil upload2 (uploadedFiles failed) results)
    by now rewrite EU.
  split; [exact D|]. unfold submitClick. rewrite D. split.
  - rewrite (submit_uploads_fulfilled upload2 handler2 failed _ P'
               (uploadAll_of_fulfilled _ _ _ F')).
    assert (SU : s3Uploads (callOnGenerate
                   (generateData (prompt failed) (map url results))
                   (handleGenerate_start failed)) =
                 s3Uploads m ++ uploadedFiles m ++ uploadedFiles m).
    { simpl. rewrite EU. unfold failed at 1.
      rewrite handleGenerate_s3Uploads, P. now rewrite app_assoc. }
    cbv zeta. now destruct (handler2 _).
  - rewrite (submit_uploads_fulfilled upload2 handler2 failed _ P'
               (uploadAll_of_fulfilled _ _ _ F')).
    cbv zeta. rewrite EP. now destruct (handler2 _).
Qed.

End SubmitMore.

(** ** More on runs of events *)

Lemma Forall_dropNth {A} (P : A -> Prop) (k : nat) (l : list A) :
  Forall P l -> Forall P (dropNth k l).
Proof.
  intros F. unfold dropNth. apply Forall_app. split.
  - revert k. induction F as [|x l Hx F IH]; intros [|k]; simpl;
      constructor; auto.
  - revert k. induction F as [|x l Hx F IH]; intros k; [constructor|].
    destruct k as [|k]; [exact F|]. apply (IH k).
Qed.

Lemma removeFile_frame (index : Z) (m : Modal) :
  onGenerateCalls (removeFile index m) = onGenerateCalls m
  /\ toasts (removeFile index m) = toasts m
  /\ onCloseCalls (removeFile index m) = onCloseCalls m
  /\ pendingPreviews (removeFile index m) = pendingPreviews m.
Proof.
  unfold removeFile. cbv zeta.
  change (fileInput (setShowPreview _ _)) with (fileInput m).
  destruct (fileInput m); repeat split; reflexivity.
Qed.

Section RunsMore.

Variable validate : File -> bool -> Validation.
Variable preview : File -> str.
Variable upload : File -> Promise UploadResult.
Variable handler : GenerateData -> Promise unit.

Lemma handleFiles_frame (newFiles : option (list File)) (m : Modal) :
  onGenerateCalls (handleFiles validate newFiles m) = onGenerateCalls m
  /\ onCloseCalls (handleFiles validate newFiles m) = onCloseCalls m.
Proof.
  rewrite handleFiles_eq.
  destruct (validCandidates validate newFiles); split; reflexivity.
Qed.

Lemma step_previews_bound (m : Modal) (ev : Event) :
  (length (previews m) <= 2)%nat /\ Forall batchSized (pendingPreviews m) ->
  (length (previews (step validate preview upload handler m ev)) <= 2)%nat
  /\ Forall batchSized
       (pendingPreviews (step validate preview upload handler m ev)).
Proof.
  intros (L & F). destruct ev; simpl.
  - unfold resetOnOpen. simpl. split; [lia|exact F].
  - auto.
  - destruct (isGenerating m); auto.
  - rewrite handleFiles_previews, handleFiles_pendingPreviews,
      handleFiles_uploadedFiles.
    destruct (validCandidates validate newFiles) as [|f r]; [auto|].
    split; [exact L|]. apply Forall_app. split; [exact F|].
    constructor; [|constructor]. unfold batchSized.
    rewrite length_firstn, length_app. cbn [length]. lia.
  - unfold handleFiles_resume.
    destruct (nth_error (pendingPreviews m) k) as [b|] eqn:E; [|auto].
    simpl. split; [|now apply Forall_dropNth].
    rewrite length_map. apply nth_error_In in E.
    rewrite Forall_forall in F. destruct (F b E). lia.
  - destruct (isGenerating m); [auto|].
    destruct (removeFile_fields index m) as (_ & -> & _).
    destruct (removeFile_frame index m) as (_ & _ & _ & ->).
    split; [|exact F].
    pose proof (filterIndexNe_length index 0 (previews m)). lia.
  - auto.
  - auto.
  - unfold submitClick. destruct (submitDisabled m); [auto|].
    now destruct (handleGenerate_frame upload handler m)
      as (_ & -> & _ & ->).
  - unfold submitShortcut, shortcutCallback.
    destruct (negb (isOpen m) || isGenerating m); [auto|].
    destruct (isOpen m && negb (isGenerating m) && truthy (trim (prompt m)));
      [|auto].
    now destruct (handleGenerate_frame upload handler m)
      as (_ & -> & _ & ->).
  - unfold handleOpenChange.
    destruct (negb open && isGenerating m); auto.
Qed.

(** X6. After any run of events from the mounted modal there are at most 2
    previews, and every preview batch still awaited was started for 1 or 2
    files. *)
Theorem previews_and_batches_bounded (evs : list Event) (open : bool)
    (input : option str) :
  (length (previews
     (run validate preview upload handler evs (mount open input))) <= 2)%nat
  /\ Forall batchSized
       (pendingPreviews
          (run validate preview upload handler evs (mount open input))).
Proof.
  assert (G : forall m,
             (length (previews m) <= 2)%nat
             /\ Forall batchSized (pendingPreviews m) ->
             (length (previews
                (run validate preview upload handler evs m)) <= 2)%nat
             /\ Forall batchSized
                  (pendingPreviews
                     (run validate preview upload handler evs m))).
  { induction evs as [|ev evs' IH]; intros m H; simpl; [exact H|].
    apply IH. now apply step_previews_bound. }
  apply G. simpl. split; [lia|constructor].
Qed.

Lemma step_wellFormed (m : Modal) (ev : Event) :
  (length (uploadedFiles m) <= 2)%nat ->
  Forall wellFormedData (onGenerateCalls m) ->
  Forall wellFormedData
    (onGenerateCalls (step validate preview upload handler m ev)).
Proof.
  intros L F. destruct ev; simpl.
  - unfold resetOnOpen. simpl. exact F.
  - exact F.
  - destruct (isGenerating m); exact F.
  - now destruct (handleFiles_frame newFiles m) as (-> & _).
  - unfold handleFiles_resume.
    destruct (nth_error (pendingPreviews m) k); exact F.
  - destruct (isGenerating m); [exact F|].
    now destruct (removeFile_frame index m) as (-> & _).
  - exact F.
  - exact F.
  - unfold submitClick. destruct (submitDisabled m); [exact F|].
    now apply handleGenerate_wellFormed.
  - unfold submitShortcut, shortcutCallback.
    destruct (negb (isOpen m) || isGenerating m); [exact F|].
    destruct (isOpen m && negb (isGenerating m) && truthy (trim (prompt m)));
      [|exact F].
    now apply handleGenerate_wellFormed.
  - unfold handleOpenChange.
    destruct (negb open && isGenerating m); exact F.
Qed.

(** X7. Whatever the events, every call the modal makes to [onGenerate]
    carries a prompt that is not blank and [characterUrls] either absent or
    holding 1 or 2 URLs: never an empty list, never more than 2. *)
Theorem handler_always_gets_well_formed_data (evs : list Event) (open : bool)
    (input : option str) :
  Forall wellFormedData
    (onGenerateCalls
       (run validate preview upload handler evs (mount open input))).
Proof.
  assert (G : forall m,
             (length (uploadedFiles m) <= 2)%nat ->
             Forall wellFormedData (onGenerateCalls m) ->
             Forall wellFormedData
               (onGenerateCalls (run validate preview upload handler evs m))).
  { induction evs as [|ev evs' IH]; intros m L F; simpl; [exact F|].
    apply IH.
    - now apply step_attachments_bound.
    - now apply step_wellFormed. }
  apply G; simpl; [lia|constructor].
Qed.

Lemma step_modalToasts (m : Modal) (ev : Event) :
  Forall modalToast (toasts m) ->
  Forall modalToast (toasts (step validate preview upload handler m ev)).
Proof.
  intros F. destruct ev; simpl.
  - unfold resetOnOpen. simpl. exact F.
  - exact F.
  - destruct (isGenerating m); exact F.
  - rewrite handleFiles_toasts. apply Forall_app. split; [exact F|].
    apply Forall_forall. intros t H. apply in_map_iff in H.
    destruct H as (e & <- & H). unfold modalToast. simpl.
    repeat split. left. split; [reflexivity|].
    now apply (notifiedReasons_truthy validate newFiles).
  - unfold handleFiles_resume.
    destruct (nth_error (pendingPreviews m) k); exact F.
  - destruct (isGenerating m); [exact F|].
    now destruct (removeFile_frame index m) as (_ & -> & _).
  - exact F.
  - exact F.
  - unfold submitClick. destruct (submitDisabled m); [exact F|].
    now apply handleGenerate_modalToasts.
  - unfold submitShortcut, shortcutCallback.
    destruct (negb (isOpen m) || isGenerating m); [exact F|].
    destruct (isOpen m && negb (isGenerating m) && truthy (trim (prompt m)));
      [|exact F].
    now apply handleGenerate_modalToasts.
  - unfold handleOpenChange.
    destruct (negb open && isGenerating m); exact F.
Qed.

(** X8. Whatever the events, every notification the modal raises is a
    destructive one lasting 4000 ms, titled either "Invalid file", with a
    description that is not empty, or "Generation failed". *)
Theorem only_error_notifications (evs : list Event) (open : bool)
    (input : option str) :
  Forall modalToast
    (toasts (run validate preview upload handler evs (mount open input))).
Proof.
  assert (G : forall m,
             Forall modalToast (toasts m) ->
             Forall modalToast
               (toasts (run validate preview upload handler evs m))).
  { induction evs as [|ev evs' IH]; intros m F; simpl; [exact F|].
    apply IH. now apply step_modalToasts. }
  apply G. constructor.
Qed.

Lemma step_onCloseCalls (m : Modal) (ev : Event) :
  (onCloseCalls m
   <= onCloseCalls (step validate preview upload handler m ev)
   <= onCloseCalls m + (if isOpenChange ev then 1 else 0))%nat.
Proof.
  destruct ev; simpl.
  - unfold resetOnOpen. simpl. lia.
  - lia.
  - destruct (isGenerating m); simpl; lia.
  - destruct (handleFiles_frame newFiles m) as (_ & ->). lia.
  - unfold handleFiles_resume.
    destruct (nth_error (pendingPreviews m) k); simpl; lia.
  - destruct (isGenerating m); [lia|].
    destruct (removeFile_frame index m) as (_ & _ & -> & _). lia.
  - lia.
  - lia.
  - unfold submitClick. destruct (submitDisabled m); [lia|].
    rewrite handleGenerate_onCloseCalls. lia.
  - unfold submitShortcut, shortcutCallback.
    destruct (negb (isOpen m) || isGenerating m); [lia|].
    destruct (isOpen m && negb (isGenerating m) && truthy (trim (prompt m)));
      [|lia].
    rewrite handleGenerate_onCloseCalls. lia.
  - unfold handleOpenChange.
    destruct (negb open && isGenerating m); simpl; lia.
Qed.

(** X9. The modal calls [onClose] only on an open-change request, at most
    once per request: over any run of events the number of calls grows by at
    most the number of such requests, so that no submission, whatever its
    outcome, closes the modal. *)
Theorem onClose_only_on_open_change (evs : list Event) (m : Modal) :
  (onCloseCalls m
   <= onCloseCalls (run validate preview upload handler evs m)
   <= onCloseCalls m + length (filter isOpenChange evs))%nat.
Proof.
  revert m. induction evs as [|ev evs' IH]; intros m; simpl; [lia|].
  pose proof (step_onCloseCalls m ev) as S.
  specialize (IH (step validate preview upload handler m ev)).
  fold (run validate preview upload handler evs'
          (step validate preview upload handler m ev)) in IH |- *.
  destruct (isOpenChange ev); simpl; lia.
Qed.

Lemma step_blocked (m : Modal) (ev : Event) :
  isGenerating m = true -> blockedWhileGenerating ev = true ->
  step validate preview upload handler m ev = m.
Proof.
  intros G B. destruct ev; try discriminate; simpl.
  - now rewrite G.
  - now rewrite G.
  - unfold submitClick, submitDisabled. now rewrite G, orb_true_r.
  - unfold submitShortcut. now rewrite G, orb_true_r.
  - destruct open; [discriminate|]. unfold handleOpenChange.
    now rewrite G.
Qed.

Lemma run_blocked (evs : list Event) (m : Modal) :
  isGenerating m = true ->
  forallb blockedWhileGenerating evs = true ->
  run validate preview upload handler evs m = m.
Proof.
  intros G. induction evs as [|ev evs' IH]; simpl; [reflexivity|].
  intros B. apply andb_prop in B. destruct B as (B1 & B2).
  rewrite (step_blocked m ev G B1). now apply IH.
Qed.

(** X10. While a generation is running, typing, clicking a remove button,
    clicking the submit button, pressing the shortcut and asking to close
    leave the modal exactly as it is, in any number and any order. *)
Theorem generating_modal_ignores_controls (evs : list Event) (m : Modal) :
  isGenerating m = true ->
  forallb blockedWhileGenerating evs = true ->
  run validate preview upload handler evs m = m.
Proof.
  intros G. induction evs as [|ev evs' IH]; simpl; [reflexivity|].
  intros B. apply andb_prop in B. destruct B as (B1 & B2).
  rewrite (step_blocked m ev G B1). exact (IH B2).
Qed.

(** X11. After a submission whose uploads and handler all fulfil, the modal
    stays locked: it ignores the same controls, a request to close included,
    until it is opened again, which unlocks it. *)
Theorem successful_submit_locks_modal (evs : list Event) (m : Modal)
    (results : list UploadResult) :
  truthy (trim (prompt m)) = true ->
  uploadsFulfil upload (uploadedFiles m) results ->
  handler (generateData (prompt m) (map url results)) = Fulfilled tt ->
  forallb blockedWhileGenerating evs = true ->
  run validate preview upload handler evs (handleGenerate upload handler m)
    = handleGenerate upload handler m
  /\ handleOpenChange false (handleGenerate upload handler m)
     = handleGenerate upload handler m
  /\ forall isRedrawMode existingPrompt,
       isGenerating
         (step validate preview upload handler
            (handleGenerate upload handler m)
            (Opened isRedrawMode existingPrompt)) = false.
Proof.
  intros P F H B.
  assert (G : isGenerating (handleGenerate upload handler m) = true).
  { rewrite (submit_uploads_fulfilled upload handler m _ P
               (uploadAll_of_fulfilled _ _ _ F)).
    cbv zeta. now rewrite H. }
  split; [now apply run_blocked|]. split.
  - unfold handleOpenChange. now rewrite G.
  - intros r e. reflexivity.
Qed.

End RunsMore.

(** X5, witness: the upload of the second attachment rejects at the first
    attempt and fulfils at the second. *)
Lemma retry_after_failure_uploads_again_sample :
  submissionFails Sample.uploadVillainFails Sample.generateOk
    (Sample.drafted [Sample.hero; Sample.villain])
    (ErrorInstance (lit "Upload failed"))
  /\ s3Uploads
       (submitClick Sample.uploadOk Sample.generateOk
          (handleGenerate Sample.uploadVillainFails Sample.generateOk
             (Sample.drafted [Sample.hero; Sample.villain])))
     = [Sample.hero; Sample.villain; Sample.hero; Sample.villain]
  /\ length
       (onGenerateCalls
          (submitClick Sample.uploadOk Sample.generateOk
             (handleGenerate Sample.uploadVillainFails Sample.generateOk
                (Sample.drafted [Sample.hero; Sample.villain])))) = 1%nat.
Proof.
  assert (F : submissionFails Sample.uploadVillainFails Sample.generateOk
                (Sample.drafted [Sample.hero; Sample.villain])
                (ErrorInstance (lit "Upload failed")))
    by (left; exists 1%nat; reflexivity).
  split; [exact F|].
  destruct (retry_after_failure_uploads_again Sample.uploadVillainFails
              Sample.generateOk Sample.uploadOk Sample.generateOk
              (Sample.drafted [Sample.hero; Sample.villain])
              (ErrorInstance (lit "Upload failed"))
              [Sample.stored Sample.hero; Sample.stored Sample.villain]
              eq_refl F eq_refl) as (_ & U & C).
  split; [exact U|]. rewrite C. reflexivity.
Defined.

(** X10, witness: five controls used on a modal that is generating. *)
Lemma generating_modal_ignores_controls_sample :
  isGenerating (setIsGenerating true (Sample.drafted [Sample.hero])) = true
  /\ run Sample.validateWithReason Sample.previewOf Sample.uploadOk
       Sample.generateOk
       [Typed (lit "x"); RemoveClicked 0; SubmitClicked; ShortcutPressed;
        OpenChange false]
       (setIsGenerating true (Sample.drafted [Sample.hero]))
     = setIsGenerating true (Sample.drafted [Sample.hero]).
Proof.
  split; [reflexivity|].
  exact (generating_modal_ignores_controls Sample.validateWithReason
           Sample.previewOf Sample.uploadOk Sample.generateOk
           [Typed (lit "x"); RemoveClicked 0; SubmitClicked; ShortcutPressed;
            OpenChange false]
           (setIsGenerating true (Sample.drafted [Sample.hero]))
           eq_refl eq_refl).
Defined.

(** X11, witness: after a successful submission with one attachment, a
    request to close and a click on submit change nothing. *)
Lemma successful_submit_locks_modal_sample :
  uploadsFulfil Sample.uploadOk
    (uploadedFiles (Sample.drafted [Sample.hero])) [Sample.stored Sample.hero]
  /\ run Sample.validateWithReason Sample.previewOf Sample.uploadOk
       Sample.generateOk [OpenChange false; SubmitClicked]
       (handleGenerate Sample.uploadOk Sample.generateOk
          (Sample.drafted [Sample.hero]))
     = handleGenerate Sample.uploadOk Sample.generateOk
         (Sample.drafted [Sample.hero])
  /\ onCloseCalls
       (handleOpenChange false
          (handleGenerate Sample.uploadOk Sample.generateOk
             (Sample.drafted [Sample.hero]))) = 0%nat.
Proof.
  split; [reflexivity|].
  destruct (successful_submit_locks_modal Sample.validateWithReason
              Sample.previewOf Sample.uploadOk Sample.generateOk
              [OpenChange false; SubmitClicked]
              (Sample.drafted [Sample.hero]) [Sample.stored Sample.hero]
              eq_refl eq_refl eq_refl eq_refl) as (R & D & _).
  split; [exact R|]. rewrite D. reflexivity.
Defined.

(** ** Opening again *)

Section Reopen.

Variable validate : File -> bool -> Validation.
Variable preview : File -> str.
Variable upload : File -> Promise UploadResult.
Variable handler : GenerateData -> Promise unit.

(** X12. Opening resets the prompt (to the existing prompt in redraw mode,
    to the empty string otherwise), the attachments, the previews and the
    generating flag, whatever they were; it does not cancel the preview
    batches still awaited, so a batch started before the modal was opened
    again sets its previews when it resolves, beside an empty attachment
    list. *)
Theorem reopening_resets_but_keeps_batches (m : Modal) (k : nat)
    (batch : list File) (isRedrawMode : bool) (existingPrompt : str) :
  nth_error (pendingPreviews m) k = Some batch ->
  let reopened :=
    step validate preview upload handler m
      (Opened isRedrawMode existingPrompt) in
  let late := step validate preview upload handler reopened (PreviewsReady k) in
  prompt reopened = (if isRedrawMode then existingPrompt else [])
  /\ uploadedFiles reopened = []
  /\ previews reopened = []
  /\ isGenerating reopened = false
  /\ pendingPreviews reopened = pendingPreviews m
  /\ uploadedFiles late = []
  /\ previews late = map preview batch.
Proof.
  intros H reopened late.
  assert (P : pendingPreviews reopened = pendingPreviews m) by reflexivity.
  repeat split.
  - unfold late. simpl. unfold handleFiles_resume. rewrite P, H. reflexivity.
  - unfold late. simpl. unfold handleFiles_resume. rewrite P, H. reflexivity.
Qed.

End Reopen.

(** X12, witness: a file is added, the modal is hidden and opened again,
    and then the previews of the file arrive. *)
Lemma reopening_resets_but_keeps_batches_sample :
  nth_error
    (pendingPreviews
       (handleFiles Sample.validateWithReason (Some [Sample.hero])
          (mount true (Some [])))) 0 = Some [Sample.hero]
  /\ uploadedFiles
       (run Sample.validateWithReason Sample.previewOf Sample.uploadOk
          Sample.generateOk
          [FilesChosen (Some [Sample.hero]); Opened false [];
           PreviewsReady 0]
          (mount true (Some []))) = []
  /\ previews
       (run Sample.validateWithReason Sample.previewOf Sample.uploadOk
          Sample.generateOk
          [FilesChosen (Some [Sample.hero]); Opened false [];
           PreviewsReady 0]
          (mount true (Some []))) = [Sample.previewOf Sample.hero].
Proof.
  split; [reflexivity|].
  destruct (reopening_resets_but_keeps_batches Sample.validateWithReason
              Sample.previewOf Sample.uploadOk Sample.generateOk
              (handleFiles Sample.validateWithReason (Some [Sample.hero])
                 (mount true (Some [])))
              0 [Sample.hero] false [] eq_refl)
    as (_ & _ & _ & _ & _ & A & B).
  split; [exact A|exact B].
Defined.

(** ** The Google One Tap widget *)

Section OneTap.

Import GoogleOneTap.

Lemma setTimeout_None_idle (w : Widget) :
  timeout w = None -> setTimeout None w = w.
Proof. destruct w. simpl. now intros ->. Qed.

Lemma run_without_timer (evs : list Event) (w : Widget) :
  timeout w = None -> run evs w = w.
Proof.
  intros T. induction evs as [|ev evs' IH]; simpl; [reflexivity|].
  destruct ev as [ms g|]; simpl.
  - rewrite T. exact IH.
  - rewrite (setTimeout_None_idle w T). exact IH.
Qed.

Lemma oneTap_timeout (google : bool) (w : Widget) :
  timeout (oneTap google w) = timeout w.
Proof. unfold oneTap. now destruct google. Qed.

Lemma run_before_timer (evs : list Event) :
  forall (w : Widget) (remaining : N),
    timeout w = Some remaining -> googleCalls w = [] ->
    elapsed evs < remaining ->
    googleCalls (run evs w) = [].
Proof.
  induction evs as [|ev evs' IH]; intros w remaining T G E; simpl;
    [exact G|].
  destruct ev as [ms g|]; simpl in *.
  - rewrite T. destruct (N.leb_spec remaining ms) as [L|L]; [lia|].
    apply (IH _ (remaining - ms)); [reflexivity|exact G|lia].
  - now rewrite run_without_timer.
Qed.

Lemma run_at_most_once (evs : list Event) :
  forall w : Widget,
    googleCalls w = [] ->
    googleCalls (run evs w) = []
    \/ googleCalls (run evs w) = [Initialize (googleClientId w); Prompt].
Proof.
  induction evs as [|ev evs' IH]; intros w G; simpl; [now left|].
  destruct ev as [ms g|]; simpl.
  - destruct (timeout w) as [remaining|] eqn:T; [|now apply IH].
    destruct (remaining <=? ms).
    + rewrite run_without_timer by now rewrite oneTap_timeout.
      unfold oneTap. destruct g; simpl; rewrite G; auto.
    + now apply (IH (setTimeout (Some (remaining - ms)) w)).
  - now apply (IH (setTimeout None w)).
Qed.

Lemma run_fires (evs : list Event) :
  forall (w : Widget) (remaining : N),
    timeout w = Some remaining -> googleCalls w = [] ->
    0 < remaining -> remaining <= elapsed evs ->
    forallb (fun ev => negb (unmounts ev) && googleLoaded ev) evs = true ->
    googleCalls (run evs w) = [Initialize (googleClientId w); Prompt].
Proof.
  induction evs as [|ev evs' IH]; intros w remaining T G Z E A; simpl in *;
    [lia|].
  apply andb_prop in A. destruct A as (A1 & A2).
  destruct ev as [ms g|]; simpl in *; [|discriminate].
  rewrite T. destruct (N.leb_spec remaining ms) as [L|L].
  - rewrite run_without_timer by now rewrite oneTap_timeout.
    rewrite A1. simpl. now rewrite G.
  - apply (IH (setTimeout (Some (remaining - ms)) w) (remaining - ms));
      [reflexivity|exact G|lia|lia|exact A2].
Qed.

(** X13. Outside production, or without a client id (absent or empty), the
    widget renders nothing and sets no timer: however much time passes, it
    never calls Google. *)
Theorem one_tap_needs_production_and_client_id (isProduction : bool)
    (clientId : option str) (evs : list Event) :
  isProduction = false \/ truthyOpt clientId = false ->
  rendered (run evs (CustomGoogleOneTap isProduction clientId)) = false
  /\ timeout (run evs (CustomGoogleOneTap isProduction clientId)) = None
  /\ googleCalls (run evs (CustomGoogleOneTap isProduction clientId)) = [].
Proof.
  intros H.
  assert (E : negb isProduction || negb (truthyOpt clientId) = true).
  { destruct H as [->| ->]; [reflexivity|apply orb_true_r]. }
  rewrite run_without_timer;
    unfold CustomGoogleOneTap; rewrite E; repeat split.
Qed.

(** X14. In production with a client id, the widget initialises Google with
    that client id and shows the prompt at most once: not before 2000 ms
    have passed, not at all when it unmounts before that, and exactly once
    when 2000 ms pass while it stays mounted and Google's script is there. *)
Theorem one_tap_prompts_once_after_two_seconds (clientId : str) :
  truthy clientId = true ->
  let mounted := CustomGoogleOneTap true (Some clientId) in
  (forall evs,
      googleCalls (run evs mounted) = []
      \/ googleCalls (run evs mounted) = [Initialize (Some clientId); Prompt])
  /\ (forall evs, elapsed evs < 2000 -> googleCalls (run evs mounted) = [])
  /\ (forall before after,
        elapsed before < 2000 ->
        googleCalls (run (before ++ Unmount :: after) mounted) = [])
  /\ (forall evs,
        2000 <= elapsed evs ->
        forallb (fun ev => negb (unmounts ev) && googleLoaded ev) evs = true ->
        googleCalls (run evs mounted) = [Initialize (Some clientId); Prompt]).
Proof.
  intros T mounted.
  assert (M : mounted =
              {| rendered := true; googleClientId := Some clientId;
                 timeout := Some 2000; googleCalls := []; clerkCalls := [];
                 consoleLog := []; routerPushes := [] |}).
  { unfold mounted, CustomGoogleOneTap. simpl. now rewrite T. }
  split; [|split; [|split]].
  - intros evs. rewrite M. apply (run_at_most_once evs). reflexivity.
  - intros evs E. rewrite M.
    apply (run_before_timer evs _ 2000); [reflexivity|reflexivity|exact E].
  - intros before after E. unfold run. rewrite fold_left_app. simpl.
    fold (run before mounted).
    fold (run after (setTimeout None (run before mounted))).
    rewrite run_without_timer by reflexivity. simpl. rewrite M.
    apply (run_before_timer before _ 2000);
      [reflexivity|reflexivity|exact E].
  - intros evs E A. rewrite M.
    assert (Z : 0 < 2000) by lia.
    exact (run_fires evs
             {| rendered := true; googleClientId := Some clientId;
                timeout := Some 2000; googleCalls := []; clerkCalls := [];
                consoleLog := []; routerPushes := [] |}
             2000 eq_refl eq_refl Z E A).
Qed.

Variable authenticate : str -> Promise str.
Variable handleCallback : str -> str -> Promise unit.

(** X15. [call(token)] asks Clerk to authenticate with the token and, only
    once that has fulfilled, to handle the callback with its result and the
    fallback ["/"]; it navigates to ["/"], once, exactly when one of the two
    rejects, and nowhere otherwise. It never touches Google or the timer. *)
Theorem call_redirects_home_on_failure (token : str) (w : Widget) :
  clerkCalls (call authenticate handleCallback token w) =
    clerkCalls w ++
    AuthenticateWithGoogleOneTap token ::
    match authenticate token with
    | Fulfilled res => [HandleGoogleOneTapCallback res (lit "/")]
    | _ => []
    end
  /\ routerPushes (call authenticate handleCallback token w) =
     routerPushes w ++
     match authenticate token with
     | Fulfilled res =>
         match handleCallback res (lit "/") with
         | Rejected _ _ => [lit "/"]
         | _ => []
         end
     | Rejected _ _ => [lit "/"]
     | Pending => []
     end
  /\ googleCalls (call authenticate handleCallback token w) = googleCalls w
  /\ timeout (call authenticate handleCallback token w) = timeout w.
Proof.
  unfold call. cbv zeta.
  destruct (authenticate token) as [res|t e|]; simpl.
  - destruct (handleCallback res (lit "/")) as [u|t e|]; simpl;
      rewrite <- ?app_assoc, ?app_nil_r; repeat split.
  - rewrite ?app_nil_r. repeat split.
  - rewrite ?app_nil_r. repeat split.
Qed.

End OneTap.

(** X13, witness: production, but an empty client id. *)
Lemma one_tap_needs_production_and_client_id_empty_id :
  (true = false \/ truthyOpt (Some []) = false)
  /\ GoogleOneTap.googleCalls
       (GoogleOneTap.run
          [GoogleOneTap.Elapse 5000 true; GoogleOneTap.Elapse 5000 true]
          (GoogleOneTap.CustomGoogleOneTap true (Some []))) = [].
Proof.
  split; [right; reflexivity|].
  exact (proj2 (proj2
           (one_tap_needs_production_and_client_id true (Some [])
              [GoogleOneTap.Elapse 5000 true; GoogleOneTap.Elapse 5000 true]
              (or_intror eq_refl)))).
Defined.

(** X14, witness: 1500 ms pass, then 500 more with Google's script loaded;
    in another run the widget unmounts after 1999 ms. *)
Lemma one_tap_prompts_once_after_two_seconds_sample :
  truthy (lit "client-1") = true
  /\ GoogleOneTap.googleCalls
       (GoogleOneTap.run
          [GoogleOneTap.Elapse 1500 true; GoogleOneTap.Elapse 500 true;
           GoogleOneTap.Elapse 9000 true]
          (GoogleOneTap.CustomGoogleOneTap true (Some (lit "client-1"))))
     = [GoogleOneTap.Initialize (Some (lit "client-1")); GoogleOneTap.Prompt]
  /\ GoogleOneTap.googleCalls
       (GoogleOneTap.run
          ([GoogleOneTap.Elapse 1999 true] ++
           GoogleOneTap.Unmount :: [GoogleOneTap.Elapse 10 true])
          (GoogleOneTap.CustomGoogleOneTap true (Some (lit "client-1"))))
     = [].
Proof.
  split; [reflexivity|].
  destruct (one_tap_prompts_once_after_two_seconds (lit "client-1") eq_refl)
    as (_ & _ & U & F).
  split.
  - apply F; [vm_compute; discriminate|reflexivity].
  - apply U. reflexivity.
Defined.
